(** * Glucose-Monitor-App: the processing core, embedded and verified

    The development follows the Python sources of [GlucoseTracker-1]:

    - [components/glucose_display.py] and [app.py]: threshold evaluation;
    - [utils/data_processor.py]: rolling enrichment and statistics;
    - [utils/alert_manager.py]: the SMS / e-mail alert dispatcher;
    - [utils/nightscout_api.py]: the telemetry client;
    - [utils/db_utils.py]: the persistence gateway.

    Numbers.  Glucose values are Python ints or floats; a float is embedded
    as the rational it is, and comparisons, minima and maxima are exact on
    them.  Where the code adds, divides or multiplies floats, the module
    [DataProcessor] keeps the exact result the float approximates, and the
    modules [Binary64] and [Series64] give the float64 result itself, with
    its rounding.  Timestamps are integers (microseconds).  Python [None] is
    [None]; a Python value used as a condition is read through [truthy]. *)

From Stdlib Require Import List Bool ZArith QArith Qminmax Qround Lia Lqa String Ascii.
From Stdlib Require Import Permutation Sorted.
Import ListNotations.

Local Open Scope Q_scope.

(** ** Python conventions shared by the modules *)

Module Py.

(** [if s:] on an [Optional[str]]: [None] and the empty string are false. *)
Definition truthy (s : option string) : bool :=
  match s with
  | None => false
  | Some EmptyString => false
  | Some (String _ _) => true
  end.

(** [s is not None]. *)
Definition is_not_None {A : Type} (s : option A) : bool :=
  match s with None => false | Some _ => true end.

(** Strict comparison of two numbers, [x < y]. *)
Definition ltb (x y : Q) : bool :=
  match x ?= y with Lt => true | _ => false end.

(** Weak comparison of two numbers, [x <= y]. *)
Definition leb (x y : Q) : bool :=
  match x ?= y with Gt => false | _ => true end.

(** Exceptions: the class an [except] clause matches on, and the message.
    [BaseExc] is the builtin [Exception] itself, [RequestExc] stands for
    [requests.RequestException] and its subclasses, [OtherExc] for any
    other subclass of [Exception] ([ValueError], [KeyError],
    [SQLAlchemyError], ...), named by its class. *)
Inductive exc_class : Type :=
| BaseExc
| RequestExc
| OtherExc (name : string).

Record exn : Type := Exn { exn_class : exc_class; exn_msg : string }.

(** [except requests.RequestException]. *)
Definition is_RequestException (e : exn) : bool :=
  match exn_class e with RequestExc => true | _ => false end.

(** [raise Exception(f"{prefix}{str(e)}")]. *)
Definition reraise (prefix : string) (e : exn) : exn :=
  Exn BaseExc (prefix ++ exn_msg e)%string.

End Py.

(** ** Threshold evaluation ([components/glucose_display.py], [app.py]) *)

Module Threshold.

Inductive classification : Type := Low | InRange | High.

(** [display_current_glucose], lines 27-38: the status shown next to the
    current value, against the fixed bounds 70 and 180. *)
Definition display_status (value : Q) : classification :=
  if Py.ltb value 70 then Low
  else if Py.ltb 180 value then High
  else InRange.

(** The session's thresholds ([st.session_state.low_threshold] and
    [high_threshold]). *)
Record thresholds : Type := Thresholds { low : Q; high : Q }.

(** [main], lines 283-310: the branch taken on the current value; the
    high test comes first, the low test is its [elif]. *)
Definition alert_branch (glucose_value : Q) (t : thresholds) : classification :=
  if Py.ltb (high t) glucose_value then High
  else if Py.ltb glucose_value (low t) then Low
  else InRange.

(** What the request knows when it reaches the alert check. *)
Record session : Type := Session {
  enable_alerts : bool;
  phone_number : option string;
  user_email : option string;
  current_sgv : option Q;       (* [current_glucose], [None] when absent *)
  can_send_alerts : bool;       (* [AlertManager.can_send_alerts()] *)
  limits : thresholds
}.

(** [main], lines 274-310: [Some "high"] or [Some "low"] when
    [send_glucose_alert] is called with that [alert_type], [None] when no
    alert is sent. *)
Definition alert_fired (s : session) : option string :=
  if enable_alerts s
     && (Py.truthy (phone_number s) || Py.truthy (user_email s))
  then
    match current_sgv s with
    | None => None
    | Some glucose_value =>
        if can_send_alerts s then
          match alert_branch glucose_value (limits s) with
          | High => Some "high"%string
          | Low => Some "low"%string
          | InRange => None
          end
        else None
    end
  else None.

(** The contract in the specification's words: [value < low] is Low,
    [value > high] is High, anything else is InRange. *)
Definition classify_spec (value : Q) (t : thresholds) : classification :=
  if Py.ltb value (low t) then Low
  else if Py.ltb (high t) value then High
  else InRange.

(** [main], line 221: the value the advice panel is chosen from,
    [current_glucose.get('sgv', 0) if current_glucose else 0]. *)
Definition advice_value (s : session) : Q :=
  match current_sgv s with
  | Some glucose_value => glucose_value
  | None => 0
  end.

(** [main], lines 223-271: the advice panel that is expanded ([High] and
    [Low]) or the absence of a panel ([InRange]), shown whether or not
    alerts are enabled. *)
Definition advice_shown (s : session) : classification :=
  alert_branch (advice_value s) (limits s).

End Threshold.

(** ** Series processing ([utils/data_processor.py]) *)

Module DataProcessor.

(** A float as pandas reports it: a number, the missing-value marker
    [NaN], or the square root of a number (standard deviations; the root
    is kept symbolic, the radicand is exact). *)
Inductive pyfloat : Type :=
| Num (q : Q)
| NaN
| SqrtOf (radicand : Q).

(** The columns of the frame the processor reads and writes.  The three
    derived columns exist only once [process_glucose_data] has added
    them. *)
Record frame : Type := Frame {
  sgv : list Q;
  date : list Z;
  datetime : option (list Z);
  rolling_avg : option (list pyfloat);
  rolling_std : option (list pyfloat)
}.

(** [df.empty]. *)
Definition empty (df : frame) : bool :=
  match sgv df with [] => true | _ :: _ => false end.

Definition total (xs : list Q) : Q := fold_right Qplus 0 xs.

Definition count (xs : list Q) : Q := inject_Z (Z.of_nat (List.length xs)).

(** The exact mean of the samples, which [Series.mean()] approximates in
    float64 ([Series64.mean] is the float64 value). *)
Definition mean (xs : list Q) : Q := total xs / count xs.

(** Sum of squared deviations from the mean. *)
Definition sq_dev (xs : list Q) : Q :=
  let m := mean xs in
  fold_right (fun x acc => (x - m) * (x - m) + acc) 0 xs.

(** [Series.std()]: the sample standard deviation (denominator N-1),
    [NaN] on fewer than two values. *)
Definition std (xs : list Q) : pyfloat :=
  match xs with
  | [] | [_] => NaN
  | _ :: ((_ :: _) as rest) => SqrtOf (sq_dev xs / count rest)
  end.

(** [Series.max()] and [Series.min()] of a series whose head is [x]. *)
Definition max_from (x : Q) (xs : list Q) : Q := fold_left Qmax xs x.
Definition min_from (x : Q) (xs : list Q) : Q := fold_left Qmin xs x.

(** [(df['sgv'] >= 70) & (df['sgv'] <= 180)], one boolean per sample. *)
Definition in_target (v : Q) : bool := Py.leb 70 v && Py.leb v 180.

(** The mean of a boolean series: the fraction of [True]. *)
Definition fraction (bs : list bool) : Q :=
  inject_Z (Z.of_nat (List.length (filter (fun b => b) bs)))
  / inject_Z (Z.of_nat (List.length bs)).

(** The trailing window of [w] samples that ends at position [i]
    (0-based); [None] while fewer than [w] samples have been seen
    ([min_periods] defaults to the window size). *)
Definition window_at (w : nat) (xs : list Q) (i : nat) : option (list Q) :=
  if (w <=? i + 1)%nat then Some (firstn w (skipn (i + 1 - w) xs)) else None.

(** [Series.rolling(window=w).agg()]. *)
Definition rolling (w : nat) (agg : list Q -> pyfloat) (xs : list Q)
  : list pyfloat :=
  map (fun i => match window_at w xs i with
                | Some win => agg win
                | None => NaN
                end)
      (seq 0 (List.length xs)).

(** [process_glucose_data]. *)
Definition process_glucose_data (df : frame) : frame :=
  if empty df then df
  else
    {| sgv := sgv df;
       date := date df;
       datetime := Some (date df);
       rolling_avg := Some (rolling 12 (fun win => Num (mean win)) (sgv df));
       rolling_std := Some (rolling 12 std (sgv df)) |}.

(** The dictionary [calculate_statistics] returns, in insertion order. *)
Definition stats : Type := list (string * pyfloat).

(** [stats[key]], [None] when the key is not in the dictionary. *)
Fixpoint lookup (key : string) (d : stats) : option pyfloat :=
  match d with
  | [] => None
  | (k, v) :: rest => if String.eqb k key then Some v else lookup key rest
  end.

(** [calculate_statistics].  [current], [max] and [min] are samples and so
    exact; [average], [std] and [in_range] are kept as the exact values
    the float64 results approximate ([Series64.mean] and
    [Series64.in_range] are the float64 average and percentage). *)
Definition calculate_statistics (df : frame) : stats :=
  match sgv df with
  | [] => []
  | first :: rest =>
      [ ("current", Num first);
        ("average", Num (mean (sgv df)));
        ("std", std (sgv df));
        ("max", Num (max_from first rest));
        ("min", Num (min_from first rest));
        ("in_range", Num (fraction (map in_target (sgv df)) * 100)) ]%string
  end.

(** [display_statistics], lines 6-9 of [components/statistics.py]: what
    the caller does with the dictionary before reading any number. *)
Inductive rendering : Type :=
| NoDataWarning
| Metrics (d : stats).

Definition display_statistics (d : stats) : rendering :=
  match d with
  | [] => NoDataWarning
  | _ :: _ => Metrics d
  end.

(** The [arrows] dictionary of [get_trend_arrow]. *)
Definition arrows : list (string * string) :=
  [ ("DoubleUp", "↑↑");
    ("SingleUp", "↑");
    ("FortyFiveUp", "↗");
    ("Flat", "→");
    ("FortyFiveDown", "↘");
    ("SingleDown", "↓");
    ("DoubleDown", "↓↓");
    ("NONE", "-") ]%string.

(** [dict.get(key, default)]. *)
Fixpoint dict_get (key : string) (d : list (string * string))
  (default : string) : string :=
  match d with
  | [] => default
  | (k, v) :: rest => if String.eqb k key then v else dict_get key rest default
  end.

(** [get_trend_arrow]. *)
Definition get_trend_arrow (direction : string) : string :=
  dict_get direction arrows "-".

End DataProcessor.

(** ** Float64 arithmetic *)

Module Binary64.

(** IEEE 754 binary64 in its normal range (no overflow, no subnormals): a
    float is the rational it denotes, and every operation returns the
    exact result rounded to the nearest number with a 53-bit significand,
    ties to the even significand. *)

(** The nearest integer, ties to even. *)
Definition nearest_even (r : Q) : Z :=
  let fl := Qfloor r in
  match Qcompare (r - inject_Z fl) (1 # 2) with
  | Lt => fl
  | Gt => (fl + 1)%Z
  | Eq => if Z.even fl then fl else (fl + 1)%Z
  end.

(** For [q > 0], the exponent [b] with [2^b <= q < 2^(b+1)]. *)
Definition binade (q : Q) : Z :=
  if Qle_bool 1 q then Z.log2 (Qfloor q)
  else (- Z.log2_up (Qceiling (/ q)))%Z.

(** [2^e] for an integer [e] of either sign. *)
Definition scale (e : Z) : Q :=
  if (0 <=? e)%Z then inject_Z (2 ^ e) else 1 / inject_Z (2 ^ (- e)).

(** Rounding of a positive number: the nearest multiple of the unit in the
    last place of its binade. *)
Definition round_pos (q : Q) : Q :=
  let p := scale (binade q - 52) in
  inject_Z (nearest_even (q / p)) * p.

Definition round (q : Q) : Q :=
  match Qcompare q 0 with
  | Eq => 0
  | Gt => round_pos q
  | Lt => - round_pos (- q)
  end.

(** [x + y], [x / y] and [x * y] on floats. *)
Definition add (x y : Q) : Q := round (x + y).
Definition div (x y : Q) : Q := round (x / y).

End Binary64.

(** ** The float64 values of the statistics ([utils/data_processor.py]) *)

Module Series64.

(** The float64 sum of a series, the samples added in order.  (numpy adds
    long arrays pairwise in blocks, another order of the same additions;
    for fewer than eight samples it is this loop.) *)
Definition sum (xs : list Q) : Q := fold_left Binary64.add xs 0.

(** [Series.mean()] in float64: the float64 sum divided by the count. *)
Definition mean (xs : list Q) : Q :=
  Binary64.div (sum xs) (inject_Z (Z.of_nat (List.length xs))).




End Series64.

(** ** Alert dispatch ([utils/alert_manager.py]) *)

Module AlertManager.

Local Open Scope string_scope.

(** [twilio.rest.Client(account_sid, auth_token)]. *)
Record twilio_client : Type :=
  Client { account_sid : string; auth_token : string }.

(** The mutable class attributes of [AlertManager]. *)
Record cls : Type := Cls {
  client : option twilio_client;
  from_number : option string;
  email_password : option string
}.

(** The class attributes that are never reassigned. *)
Definition smtp_server : string := "smtp.gmail.com".
Definition smtp_port : Z := 587.
Definition email_sender : string := "diabetes.monitor.alerts@gmail.com".

(** The attributes of a freshly imported class. *)
Definition fresh : cls :=
  {| client := None; from_number := None; email_password := None |}.

(** [os.environ], the four variables the class reads. *)
Record environ : Type := Environ {
  TWILIO_ACCOUNT_SID : option string;
  TWILIO_AUTH_TOKEN : option string;
  TWILIO_PHONE_NUMBER : option string;
  EMAIL_PASSWORD : option string
}.

(** Everything outside the process: the environment, whether building the
    Twilio client raises, what [messages.create] answers for a destination
    (a message SID or an exception) and whether the SMTP session for a
    destination raises. *)
Record world : Type := World {
  env : environ;
  client_ctor : option Py.exn;
  messages_create : string -> string + Py.exn;
  smtp_session : string -> option Py.exn
}.

(** The alert handed to the dispatcher. *)
Record alert : Type := Alert {
  glucose_value : Q;
  timestamp : option Z;
  alert_type : string
}.

(** [str.lower()] on ASCII letters. *)
Definition lower_ascii (c : ascii) : ascii :=
  let n := nat_of_ascii c in
  if ((65 <=? n) && (n <=? 90))%nat then ascii_of_nat (n + 32) else c.

Fixpoint lower (s : string) : string :=
  match s with
  | EmptyString => EmptyString
  | String c rest => String (lower_ascii c) (lower rest)
  end.

(** Which of the three wordings the message takes.  A message is kept as
    the data its text is rendered from: the wording, the glucose value
    (the text shows it formatted with [{:.0f}]) and the timestamp (the
    text shows its time of day, and the e-mail its date; the current time
    when there is none).  The rendering itself is not modelled. *)
Inductive wording : Type := HighWording | LowWording | PlainWording.

Definition wording_of (alert_type : string) : wording :=
  if String.eqb (lower alert_type) "high" then HighWording
  else if String.eqb (lower alert_type) "low" then LowWording
  else PlainWording.

Record message : Type := Message {
  msg_wording : wording;
  msg_value : Q;
  msg_time : option Z
}.

Definition compose (a : alert) : message :=
  {| msg_wording := wording_of (alert_type a);
     msg_value := glucose_value a;
     msg_time := timestamp a |}.

(** What the dispatcher does that can be observed from outside: a line on
    standard output, a call of [client.messages.create], an SMTP session
    (connect, starttls, login, send_message, quit). *)
Inductive event : Type :=
| Print (line : string)
| MessagesCreate (body : message) (from_ to : string)
| SmtpSend (sender to : string) (content : message).

(** Class methods read and write the class attributes and leave a trace:
    a state-and-trace monad. *)
Definition M (A : Type) : Type := cls -> A * cls * list event.

Definition ret {A : Type} (a : A) : M A := fun st => (a, st, []).

Definition bind {A B : Type} (m : M A) (k : A -> M B) : M B :=
  fun st =>
    let '(a, st1, t1) := m st in
    let '(b, st2, t2) := k a st1 in
    (b, st2, (t1 ++ t2)%list).

Definition get : M cls := fun st => (st, st, []).
Definition put (st : cls) : M unit := fun _ => (tt, st, []).
Definition emit (e : event) : M unit := fun st => (tt, st, [e]).
Definition print (line : string) : M unit := emit (Print line).
Definition when (b : bool) (m : M unit) : M unit := if b then m else ret tt.

Declare Scope alert_scope.
Delimit Scope alert_scope with alert.
Notation "x <- m ;; k" := (bind m (fun x => k))
  (at level 61, m at next level, right associativity) : alert_scope.
Notation "m ;; k" := (bind m (fun _ => k))
  (at level 61, right associativity) : alert_scope.
Local Open Scope alert_scope.

Definition set_client (c : option twilio_client) : M unit :=
  st <- get ;;
  put {| client := c;
         from_number := from_number st;
         email_password := email_password st |}.

Definition set_from_number (n : option string) : M unit :=
  st <- get ;;
  put {| client := client st;
         from_number := n;
         email_password := email_password st |}.

Definition set_email_password (p : option string) : M unit :=
  st <- get ;;
  put {| client := client st;
         from_number := from_number st;
         email_password := p |}.

Definition result {A : Type} (r : A * cls * list event) : A := fst (fst r).
Definition final {A : Type} (r : A * cls * list event) : cls := snd (fst r).
Definition trace {A : Type} (r : A * cls * list event) : list event := snd r.

Section Methods.

Variable w : world.

(** [_initialize_client]. *)
Definition _initialize_client : M unit :=
  set_from_number (TWILIO_PHONE_NUMBER (env w)) ;;
  set_email_password (EMAIL_PASSWORD (env w)) ;;
  match TWILIO_ACCOUNT_SID (env w), TWILIO_AUTH_TOKEN (env w) with
  | Some (String _ _ as sid), Some (String _ _ as token) =>
      match client_ctor w with
      | None =>
          set_client (Some (Client sid token)) ;;
          print "Twilio client initialized successfully" ;;
          when (Py.truthy (EMAIL_PASSWORD (env w)))
               (print "Email credentials initialized successfully")
      | Some e =>
          set_client None ;;
          print ("Failed to initialize alert clients: " ++ Py.exn_msg e)
      end
  | _, _ =>
      set_client None ;;
      print "Missing Twilio credentials" ;;
      when (Py.truthy (EMAIL_PASSWORD (env w)))
           (print "Email credentials initialized successfully")
  end.

(** [can_send_alerts]. *)
Definition can_send_alerts : M bool :=
  st <- get ;;
  when (negb (Py.is_not_None (client st))
        || negb (Py.is_not_None (email_password st)))
       _initialize_client ;;
  st <- get ;;
  let sms_configured :=
    Py.is_not_None (client st) && Py.is_not_None (from_number st) in
  let email_configured := Py.is_not_None (email_password st) in
  ret (sms_configured || email_configured).

(** [send_email_alert]. *)
Definition send_email_alert (to_email : option string) (a : alert) : M bool :=
  match to_email with
  | Some (String _ _ as dest) =>
      st <- get ;;
      if negb (Py.truthy (email_password st)) then
        print "Email password not configured, cannot send email alerts." ;;
        ret false
      else
        emit (SmtpSend email_sender dest (compose a)) ;;
        match smtp_session w dest with
        | None =>
            print ("Email alert sent to " ++ dest) ;;
            ret true
        | Some e =>
            print ("Failed to send email alert: " ++ Py.exn_msg e) ;;
            ret false
        end
  | _ =>
      print "No recipient email provided." ;;
      ret false
  end.

(** The SMS half of [send_glucose_alert], lines 243-271. *)
Definition sms_step (to_number : option string) (a : alert) : M bool :=
  match to_number with
  | Some (String _ _ as dest) =>
      st <- get ;;
      when (negb (Py.is_not_None (client st))) _initialize_client ;;
      st <- get ;;
      match client st, from_number st with
      | Some _, Some (String _ _ as sender) =>
          emit (MessagesCreate (compose a) sender dest) ;;
          match messages_create w dest with
          | inl sid =>
              print ("Alert sent to " ++ dest ++ ", SID: " ++ sid) ;;
              ret true
          | inr e =>
              print ("Failed to send SMS alert: " ++ Py.exn_msg e) ;;
              ret false
          end
      | _, _ =>
          print "SMS alerts not configured properly" ;;
          ret false
      end
  | _ => ret false
  end.

(** The e-mail half of [send_glucose_alert], lines 274-284. *)
Definition email_step (to_email : option string) (a : alert) : M bool :=
  if Py.truthy to_email then send_email_alert to_email a else ret false.

(** [send_glucose_alert]. *)
Definition send_glucose_alert
  (to_number : option string) (a : alert) (to_email : option string) : M bool :=
  sms_sent <- sms_step to_number a ;;
  let success := sms_sent in
  email_sent <- email_step to_email a ;;
  ret (success || email_sent).

End Methods.

End AlertManager.

(** ** Persistence gateway ([models/models.py], [utils/db_utils.py]) *)

Module DatabaseManager.

Local Open Scope string_scope.
Local Open Scope Z_scope.

(** The row classes of [models/models.py]. *)
Record User : Type := MkUser {
  id : Z;
  email : string;
  phone_number : option string;
  nightscout_url : string;
  created_at : Z
}.

Record GlucoseReading : Type := MkReading {
  reading_id : Z;
  user_id : Z;
  timestamp : Z;
  glucose_value : Q;
  source : string;
  notes : option string
}.

(** The two tables, and the next primary key of the users table. *)
Record database : Type := Database {
  users : list User;
  glucose_readings : list GlucoseReading;
  next_user_id : Z
}.

(** The default text of the URL field, which the gateway refuses to
    store over an existing URL. *)
Definition placeholder_url : string :=
  "https://your-nightscout-url.herokuapp.com".

(** [db.query(User).filter(User.email == email).first()]. *)
Definition first_by_email (e : string) (us : list User) : option User :=
  find (fun u => String.eqb (email u) e) us.

(** The two [setattr] calls on an existing user, lines 24-27. *)
Definition updated (u : User) (url : string) (phone : option string) : User :=
  let u1 :=
    if Py.truthy (Some url) && negb (String.eqb url placeholder_url)
    then {| id := id u; email := email u; phone_number := phone_number u;
            nightscout_url := url; created_at := created_at u |}
    else u in
  if Py.truthy phone
  then {| id := id u1; email := email u1; phone_number := phone;
          nightscout_url := nightscout_url u1; created_at := created_at u1 |}
  else u1.

(** Writing the session's (single) modified row back on commit: the first
    row with that e-mail is the one the query returned. *)
Fixpoint write_back (e : string) (u' : User) (us : list User) : list User :=
  match us with
  | [] => []
  | u :: rest =>
      if String.eqb (email u) e then u' :: rest
      else u :: write_back e u' rest
  end.

(** [get_or_create_user].  [now] is [datetime.utcnow()], used for the
    [created_at] default; [fault] is the exception the session raises
    inside the [try], if any.  The result is the returned user or the
    raised exception, together with the database afterwards. *)
Definition get_or_create_user
  (db : database) (fault : option Py.exn) (now : Z)
  (e : string) (url : string) (phone : option string)
  : (User + Py.exn) * database :=
  match fault with
  | Some ex => (inr (Py.reraise "Database error: " ex), db)
  | None =>
      match first_by_email e (users db) with
      | None =>
          let user :=
            {| id := next_user_id db;
               email := e;
               phone_number := if Py.truthy phone then phone else None;
               nightscout_url := url;
               created_at := now |} in
          (inl user,
           {| users := (users db ++ [user])%list;
              glucose_readings := glucose_readings db;
              next_user_id := next_user_id db + 1 |})
      | Some u =>
          let user := updated u url phone in
          (inl user,
           {| users := write_back e user (users db);
              glucose_readings := glucose_readings db;
              next_user_id := next_user_id db |})
      end
  end.

(** [timedelta(hours=hours)] in microseconds. *)
Definition timedelta_hours (hours : Z) : Z := hours * 3600000000.

(** [ORDER BY timestamp DESC], as an insertion sort.  The order of rows
    with equal timestamps is the backend's; nothing below depends on it. *)
Fixpoint insert_desc (r : GlucoseReading) (rs : list GlucoseReading)
  : list GlucoseReading :=
  match rs with
  | [] => [r]
  | r' :: rest =>
      if timestamp r' <=? timestamp r then r :: rs
      else r' :: insert_desc r rest
  end.

Definition order_by_timestamp_desc (rs : list GlucoseReading)
  : list GlucoseReading :=
  fold_right insert_desc [] rs.

(** The [filter] of [get_user_readings]. *)
Definition selected (uid since : Z) (r : GlucoseReading) : bool :=
  (user_id r =? uid) && (since <=? timestamp r).

(** [get_user_readings]; [now] is [datetime.utcnow()]. *)
Definition get_user_readings
  (db : database) (fault : option Py.exn) (now : Z) (uid : Z) (hours : Z)
  : list GlucoseReading + Py.exn :=
  match fault with
  | Some ex => inr (Py.reraise "Failed to fetch glucose readings: " ex)
  | None =>
      let since := now - timedelta_hours hours in
      inl (order_by_timestamp_desc
             (filter (selected uid since) (glucose_readings db)))
  end.

(** Most recent first: the order the query asks for. *)
Definition newer_first (a b : GlucoseReading) : Prop :=
  timestamp b <= timestamp a.

(** A small store: two users, four readings. *)
Definition sample_db : database :=
  {| users :=
       [ MkUser 1 "pat@example.org" (Some "+15550100")
                "https://ns.example.org" 500;
         MkUser 2 "sam@example.org" None placeholder_url 600 ];
     glucose_readings :=
       [ MkReading 1 1 (100 * 3600000000) 110 "nightscout" None;
         MkReading 2 1 (90 * 3600000000) 95 "manual" (Some "Tags: #meal");
         MkReading 3 2 (99 * 3600000000) 140 "nightscout" None;
         MkReading 4 1 (101 * 3600000000) 180 "nightscout" None ];
     next_user_id := 3 |}.

(** [save_glucose_reading].  [new_id] is the primary key the backend gives
    the new row; [fault] is the exception the session raises inside the
    [try], if any. *)
Definition save_glucose_reading
  (db : database) (fault : option Py.exn) (new_id : Z)
  (user : User) (value : Q) (stamp : Z) (src : string)
  (note : option string)
  : (GlucoseReading + Py.exn) * database :=
  match fault with
  | Some ex => (inr (Py.reraise "Failed to save glucose reading: " ex), db)
  | None =>
      let reading :=
        {| reading_id := new_id;
           user_id := id user;
           timestamp := stamp;
           glucose_value := value;
           source := src;
           notes := note |} in
      (inl reading,
       {| users := users db;
          glucose_readings := (glucose_readings db ++ [reading])%list;
          next_user_id := next_user_id db |})
  end.

End DatabaseManager.

(** ** Telemetry client ([utils/nightscout_api.py]) *)

Module NightscoutAPI.

Local Open Scope string_scope.

(** One record of the remote endpoint's JSON answer. *)
Record entry : Type := Entry {
  entry_sgv : Q;
  entry_date : Z;
  entry_direction : string
}.

Record api : Type := Api { base_url : string; dev_mode : bool }.

(** [str.rstrip('/')]. *)
Fixpoint rstrip_slash (s : string) : string :=
  match s with
  | EmptyString => EmptyString
  | String c rest =>
      match rstrip_slash rest with
      | EmptyString => if Ascii.eqb c "/" then EmptyString
                       else String c EmptyString
      | kept => String c kept
      end
  end.

(** [__init__]. *)
Definition init (url : string) : api :=
  {| base_url := rstrip_slash url;
     dev_mode := String.eqb url DatabaseManager.placeholder_url |}.

(** What one HTTP exchange does: [requests.get] raises, or it returns a
    response with a status code whose [json()] either yields the records
    or raises. *)
Inductive exchange : Type :=
| GetRaises (e : Py.exn)
| Response (status : Z) (json : list entry + Py.exn).

(** The exception [raise_for_status] raises on a 4xx or 5xx status, a
    [requests.HTTPError]. *)
Definition http_error (status : Z) : Py.exn :=
  Py.Exn Py.RequestExc "HTTP error".

(** The body of the [try]: get, [raise_for_status], [json]. *)
Definition fetch (x : exchange) : list entry + Py.exn :=
  match x with
  | GetRaises e => inr e
  | Response status json =>
      if ((400 <=? status) && (status <? 600))%Z then inr (http_error status)
      else json
  end.

(** [except requests.RequestException as e: raise Exception(...)]; any
    other exception leaves the function as it is. *)
Definition handle {A : Type} (prefix : string) (r : A + Py.exn) : A + Py.exn :=
  match r with
  | inl a => inl a
  | inr e => if Py.is_RequestException e then inr (Py.reraise prefix e)
             else inr e
  end.

(** [pd.DataFrame(data)], the two columns the processor reads. *)
Definition DataFrame (data : list entry) : DataProcessor.frame :=
  {| DataProcessor.sgv := map entry_sgv data;
     DataProcessor.date := map entry_date data;
     DataProcessor.datetime := None;
     DataProcessor.rolling_avg := None;
     DataProcessor.rolling_std := None |}.

(** The random source: the successive results of [random.randint(-20, 20)]
    and of [random.choice(['Flat', 'FortyFiveUp', 'FortyFiveDown'])]. *)
Record rng : Type := Rng { randint : nat -> Z; choice : nat -> string }.

Definition advance (g : rng) : rng :=
  {| randint := fun i => randint g (S i); choice := fun i => choice g (S i) |}.

(** The loop of [_generate_sample_data]: the walk continues from the
    unclamped value, the stored sample is clamped to [60, 250]. *)
Fixpoint sample_walk (base_glucose : Z) (dates : list Z) (g : rng)
  : list entry :=
  match dates with
  | [] => []
  | d :: rest =>
      let glucose := (base_glucose + randint g 0%nat)%Z in
      {| entry_sgv := inject_Z (Z.max 60 (Z.min 250 glucose));
         entry_date := d;
         entry_direction := choice g 0%nat |}
      :: sample_walk glucose rest (advance g)
  end.

(** [datetime.now()] as the generator uses it: the naive local wall-clock
    time, in microseconds, together with the zone of the host, given as
    the function [stamp_ms] with [stamp_ms d] = [int(d.timestamp() * 1000)]
    for a naive local time [d].  The zone's offset may differ from one
    time to the next. *)
Record local_clock : Type := Clock { wall_now : Z; stamp_ms : Z -> Z }.

(** [_generate_sample_data]: the dates are the epoch stamps of the wall
    clock times five minutes apart, going back from [now]. *)
Definition _generate_sample_data (now : local_clock) (g : rng) (hours : Z)
  : DataProcessor.frame :=
  let dates :=
    map (fun i => stamp_ms now (wall_now now - 300000000 * Z.of_nat i)%Z)
        (seq 0 (Z.to_nat (hours * 12))) in
  DataFrame (sample_walk 120 dates g).

(** [get_glucose_data]. *)
Definition get_glucose_data
  (a : api) (now : local_clock) (g : rng) (x : exchange) (hours : Z)
  : DataProcessor.frame + Py.exn :=
  if dev_mode a then inl (_generate_sample_data now g hours)
  else
    handle "Failed to fetch data from Nightscout: "
           (match fetch x with
            | inl data => inl (DataFrame data)
            | inr e => inr e
            end).

(** [get_current_glucose]; [sample] is what [_generate_current_sample]
    draws in development mode. *)
Definition get_current_glucose (a : api) (sample : entry) (x : exchange)
  : option entry + Py.exn :=
  if dev_mode a then inl (Some sample)
  else
    handle "Failed to fetch current glucose: "
           (match fetch x with
            | inl data => inl (hd_error data)
            | inr e => inr e
            end).

End NightscoutAPI.

(** ** The request cycle of [app.py], lines 176-348 *)

Module App.

Local Open Scope string_scope.

(** What the page shows at the end of the cycle: the error banner of the
    [except Exception] clause, or the dashboard built from the current
    reading and the history. *)
Inductive page : Type :=
| ErrorBanner (text : string)
| Dashboard (current : option NightscoutAPI.entry)
            (history : DataProcessor.frame).

(** The [try] of [main]: each step either yields its value or raises,
    and any exception ends the cycle in the banner
    [st.error(f"Error: {str(e)}")]. *)
Definition main
  (user : DatabaseManager.User + Py.exn)
  (current : option NightscoutAPI.entry + Py.exn)
  (history : DataProcessor.frame + Py.exn) : page :=
  match user with
  | inr e => ErrorBanner ("Error: " ++ Py.exn_msg e)
  | inl _ =>
      match current with
      | inr e => ErrorBanner ("Error: " ++ Py.exn_msg e)
      | inl cur =>
          match history with
          | inr e => ErrorBanner ("Error: " ++ Py.exn_msg e)
          | inl df => Dashboard cur df
          end
      end
  end.

(** [c.isdigit()] on an ASCII character: '0' to '9'.  ([str.isdigit] also
    accepts the digits of other scripts; a string of ASCII characters,
    [ascii_only], holds none of them.) *)
Definition isdigit (c : ascii) : bool :=
  let n := nat_of_ascii c in ((48 <=? n) && (n <=? 57))%nat.

(** Every character of the string is an ASCII character (code below 128). *)
Fixpoint ascii_only (s : string) : bool :=
  match s with
  | EmptyString => true
  | String c rest => (nat_of_ascii c <? 128)%nat && ascii_only rest
  end.

(** [''.join(c for c in phone if c.isdigit() or c == '+')]. *)
Fixpoint clean_phone (phone : string) : string :=
  match phone with
  | EmptyString => EmptyString
  | String c rest =>
      if isdigit c || Ascii.eqb c "+" then String c (clean_phone rest)
      else clean_phone rest
  end.

(** [validate_phone]; the second test reads [clean_phone[0]] only when the
    length test has passed. *)
Definition validate_phone (phone : string) : bool :=
  let cleaned := clean_phone phone in
  if (10 <=? String.length cleaned)%nat then
    match cleaned with
    | String c _ => isdigit c || Ascii.eqb c "+"
    | EmptyString => false
    end
  else false.

(** ['@' in email] and ['.' in email]. *)
Fixpoint contains (c : ascii) (s : string) : bool :=
  match s with
  | EmptyString => false
  | String c' rest => Ascii.eqb c' c || contains c rest
  end.

(** [validate_email]. *)
Definition validate_email (email : string) : bool :=
  if contains "@" email && contains "." email then true else false.


(** [main], lines 316-326: the loop that stores the fetched history.
    [fromtimestamp date] is [datetime.fromtimestamp(date / 1000)], the
    naive local time of the epoch-millisecond stamp [date] in the zone of
    the host, whose offset may differ from one instant to the next.  The
    i-th call of [save_glucose_reading] meets the fault [faults i] and
    would get the key [keys i]; a failing save is skipped and the loop
    goes on. *)
Fixpoint store_history
  (db : DatabaseManager.database) (user : DatabaseManager.User)
  (fromtimestamp : Z -> Z) (rows : list NightscoutAPI.entry)
  (faults : nat -> option Py.exn) (keys : nat -> Z)
  : DatabaseManager.database :=
  match rows with
  | [] => db
  | row :: rest =>
      let '(_, db1) :=
        DatabaseManager.save_glucose_reading db (faults 0%nat) (keys 0%nat)
          user (NightscoutAPI.entry_sgv row)
          (fromtimestamp (NightscoutAPI.entry_date row))
          "nightscout" None in
      store_history db1 user fromtimestamp rest
        (fun i => faults (S i)) (fun i => keys (S i))
  end.

End App.

(** ** Vocabulary of the dispatch contract *)

Module Channels.

Import AlertManager.

(** The class attributes as the SMS gate (line 259) reads them: the
    attributes at entry, reloaded by [_initialize_client] when no client
    is held. *)
Definition attrs_at_sms_gate (w : world) (st : cls) : cls :=
  if Py.is_not_None (client st) then st
  else final (_initialize_client w st).

(** The SMS channel is configured for a call when a recipient is given
    and the gate finds a client and a sender number. *)
Definition sms_configured (w : world) (st : cls) (to_number : option string)
  : bool :=
  Py.truthy to_number
  && Py.is_not_None (client (attrs_at_sms_gate w st))
  && Py.truthy (from_number (attrs_at_sms_gate w st)).

(** The class attributes when the e-mail half starts: the SMS half has
    run its gate exactly when a recipient number was given. *)
Definition attrs_at_email_gate
  (w : world) (st : cls) (to_number : option string) : cls :=
  if Py.truthy to_number then attrs_at_sms_gate w st else st.

(** The e-mail channel is configured for a call when a recipient is given
    and the password attribute is set. *)
Definition email_configured
  (w : world) (st : cls) (to_number to_email : option string) : bool :=
  Py.truthy to_email
  && Py.truthy (email_password (attrs_at_email_gate w st to_number)).

(** Whether the world accepts a send to the given destination. *)
Definition sms_accepted (w : world) (to_number : option string) : bool :=
  match to_number with
  | Some dest =>
      match messages_create w dest with inl _ => true | inr _ => false end
  | None => false
  end.

Definition email_accepted (w : world) (to_email : option string) : bool :=
  match to_email with
  | Some dest =>
      match smtp_session w dest with None => true | Some _ => false end
  | None => false
  end.

(** Send attempts in a trace. *)
Definition is_sms_attempt (e : event) : bool :=
  match e with MessagesCreate _ _ _ => true | _ => false end.

Definition is_email_attempt (e : event) : bool :=
  match e with SmtpSend _ _ _ => true | _ => false end.

(** The error taxonomy of the specification (section 7). *)
Inductive error_kind : Type :=
| TelemetryError
| PersistenceError
| ConfigurationError
| DeliveryError.

(** What the specification's delivery result tells about one channel. *)
Inductive channel_report : Type :=
| Skipped
| AttemptedAndFailed
| Delivered.

(** The send attempts of a trace, in order. *)
Definition attempts (t : list event) : list event :=
  filter (fun e => is_sms_attempt e || is_email_attempt e) t.

(** The send a configured SMS channel makes for an alert: the composed
    message, from the sender number the gate found, to the recipient. *)
Definition expected_sms_attempt
  (w : world) (st : cls) (to_number : option string) (a : alert)
  : list event :=
  match to_number with
  | Some (String _ _ as dest) =>
      match client (attrs_at_sms_gate w st),
            from_number (attrs_at_sms_gate w st) with
      | Some _, Some (String _ _ as sender) =>
          [MessagesCreate (compose a) sender dest]
      | _, _ => []
      end
  | _ => []
  end.

(** The send a configured e-mail channel makes for an alert. *)
Definition expected_email_attempt
  (w : world) (st : cls) (to_number to_email : option string) (a : alert)
  : list event :=
  match to_email with
  | Some (String _ _ as dest) =>
      if Py.truthy (email_password (attrs_at_email_gate w st to_number))
      then [SmtpSend email_sender dest (compose a)]
      else []
  | _ => []
  end.

End Channels.

(** ** Sample worlds and calls *)

Module Samples.

Import AlertManager.
Local Open Scope string_scope.

Definition high_alert : alert :=
  {| glucose_value := 250; timestamp := Some 0%Z; alert_type := "high" |}.

Definition phone : option string := Some "+15550100".
Definition mailbox : option string := Some "pat@example.org".

(** No credential in the environment. *)
Definition bare : world :=
  {| env := Environ None None None None;
     client_ctor := None;
     messages_create := fun _ => inl "SM01";
     smtp_session := fun _ => None |}.

(** Both channels have credentials; Twilio refuses, SMTP accepts. *)
Definition sms_down : world :=
  {| env := Environ (Some "AC01") (Some "token") (Some "+15550001")
                    (Some "secret");
     client_ctor := None;
     messages_create :=
       fun _ => inr (Py.Exn (Py.OtherExc "TwilioRestException") "unreachable");
     smtp_session := fun _ => None |}.

(** Both channels have credentials; Twilio accepts, SMTP refuses. *)
Definition smtp_down : world :=
  {| env := Environ (Some "AC01") (Some "token") (Some "+15550001")
                    (Some "secret");
     client_ctor := None;
     messages_create := fun _ => inl "SM01";
     smtp_session :=
       fun _ => Some (Py.Exn (Py.OtherExc "SMTPException") "refused") |}.

(** Both channels have credentials and both refuse. *)
Definition all_down : world :=
  {| env := Environ (Some "AC01") (Some "token") (Some "+15550001")
                    (Some "secret");
     client_ctor := None;
     messages_create :=
       fun _ => inr (Py.Exn (Py.OtherExc "TwilioRestException") "unreachable");
     smtp_session :=
       fun _ => Some (Py.Exn (Py.OtherExc "SMTPException") "refused") |}.

(** A host on UTC whose wall clock reads the epoch. *)
Definition utc : NightscoutAPI.local_clock :=
  {| NightscoutAPI.wall_now := 0%Z;
     NightscoutAPI.stamp_ms := fun d => (d / 1000)%Z |}.

(** A random source that always draws 0 and 'Flat'. *)
Definition steady : NightscoutAPI.rng :=
  {| NightscoutAPI.randint := fun _ => 0%Z;
     NightscoutAPI.choice := fun _ => "Flat" |}.

(** The class attributes after [can_send_alerts], which [app.py] calls
    before every dispatch. *)
Definition checked (w : world) : cls := final (can_send_alerts w fresh).

End Samples.

(** * Properties *)

(** ** Comparisons *)

Lemma ltb_spec (x y : Q) : Py.ltb x y = true <-> x < y.
Proof.
  unfold Py.ltb. rewrite Qlt_alt. destruct (x ?= y); intuition congruence.
Qed.

Lemma leb_spec (x y : Q) : Py.leb x y = true <-> x <= y.
Proof.
  unfold Py.leb. rewrite Qle_alt. destruct (x ?= y); intuition congruence.
Qed.

Lemma ltb_false (x y : Q) : Py.ltb x y = false <-> y <= x.
Proof.
  rewrite <- not_true_iff_false, ltb_spec. split.
  - apply Qnot_lt_le.
  - apply Qle_not_lt.
Qed.

Lemma leb_false (x y : Q) : Py.leb x y = false <-> y < x.
Proof.
  rewrite <- not_true_iff_false, leb_spec. split.
  - apply Qnot_le_lt.
  - apply Qlt_not_le.
Qed.

(** ** Threshold evaluation *)

Section ThresholdFacts.

Import Threshold.

Variable t : thresholds.
Hypothesis ordered : low t < high t.

Lemma alert_branch_low (v : Q) : alert_branch v t = Low <-> v < low t.
Proof.
  unfold alert_branch.
  destruct (Py.ltb (high t) v) eqn:Hh.
  - apply ltb_spec in Hh. split; [discriminate |].
    intros Hl. exfalso.
    apply (Qlt_irrefl v).
    apply Qlt_trans with (low t); [assumption |].
    apply Qlt_trans with (high t); assumption.
  - destruct (Py.ltb v (low t)) eqn:Hl.
    + apply ltb_spec in Hl. tauto.
    + apply ltb_false in Hl. split; [discriminate |].
      intros Hlt. exfalso. exact (Qlt_not_le _ _ Hlt Hl).
Qed.

Lemma alert_branch_high (v : Q) : alert_branch v t = High <-> high t < v.
Proof.
  unfold alert_branch.
  destruct (Py.ltb (high t) v) eqn:Hh.
  - apply ltb_spec in Hh. tauto.
  - apply ltb_false in Hh.
    split.
    + destruct (Py.ltb v (low t)); discriminate.
    + intros Hlt. exfalso. exact (Qlt_not_le _ _ Hlt Hh).
Qed.

Lemma alert_branch_in_range (v : Q) :
  alert_branch v t = InRange <-> low t <= v /\ v <= high t.
Proof.
  unfold alert_branch.
  destruct (Py.ltb (high t) v) eqn:Hh.
  - apply ltb_spec in Hh. split; [discriminate |].
    intros [_ Hle]. exfalso. exact (Qlt_not_le _ _ Hh Hle).
  - apply ltb_false in Hh.
    destruct (Py.ltb v (low t)) eqn:Hl.
    + apply ltb_spec in Hl. split; [discriminate |].
      intros [Hle _]. exfalso. exact (Qlt_not_le _ _ Hl Hle).
    + apply ltb_false in Hl. tauto.
Qed.

Lemma alert_branch_refines_contract (v : Q) :
  alert_branch v t = classify_spec v t.
Proof.
  destruct (classify_spec v t) eqn:Hc; unfold classify_spec in Hc.
  - apply alert_branch_low.
    destruct (Py.ltb v (low t)) eqn:Hl; [now apply ltb_spec |].
    destruct (Py.ltb (high t) v); discriminate.
  - apply alert_branch_in_range.
    destruct (Py.ltb v (low t)) eqn:Hl; [discriminate |].
    destruct (Py.ltb (high t) v) eqn:Hh; [discriminate |].
    split; now apply ltb_false.
  - apply alert_branch_high.
    destruct (Py.ltb v (low t)) eqn:Hl; [discriminate |].
    destruct (Py.ltb (high t) v) eqn:Hh; [now apply ltb_spec | discriminate].
Qed.

End ThresholdFacts.

Lemma alert_fired_inv (s : Threshold.session) (kind : string) :
  Threshold.alert_fired s = Some kind ->
  exists v, Threshold.current_sgv s = Some v /\
    ((kind = "high"%string /\
      Threshold.alert_branch v (Threshold.limits s) = Threshold.High) \/
     (kind = "low"%string /\
      Threshold.alert_branch v (Threshold.limits s) = Threshold.Low)).
Proof.
  unfold Threshold.alert_fired.
  destruct (_ && _); [| discriminate].
  destruct (Threshold.current_sgv s) as [v |]; [| discriminate].
  destruct (Threshold.can_send_alerts s); [| discriminate].
  destruct (Threshold.alert_branch v (Threshold.limits s)) eqn:Hb;
    intros H; inversion H; subst; exists v; auto.
Qed.

(** C2.  With [low < high], the value is classified Low exactly when it is
    below [low], High exactly when it is above [high], and InRange
    otherwise, so a value equal to a bound is InRange; this is the
    contract's classification, and the status line of the display is the
    same classification at the fixed bounds 70 and 180.  The four sample
    classifications of the specification hold, and an alert is sent only
    when the current value is classified Low or High. *)
Theorem classify_half_open (v : Q) (t : Threshold.thresholds)
  (ordered : Threshold.low t < Threshold.high t) :
  (Threshold.alert_branch v t = Threshold.Low <-> v < Threshold.low t) /\
  (Threshold.alert_branch v t = Threshold.High <-> Threshold.high t < v) /\
  (Threshold.alert_branch v t = Threshold.InRange <->
     ~ v < Threshold.low t /\ ~ Threshold.high t < v) /\
  (v == Threshold.low t \/ v == Threshold.high t ->
     Threshold.alert_branch v t = Threshold.InRange) /\
  Threshold.alert_branch v t = Threshold.classify_spec v t /\
  Threshold.display_status v
    = Threshold.alert_branch v (Threshold.Thresholds 70 180) /\
  Threshold.alert_branch 150 (Threshold.Thresholds 70 180) = Threshold.InRange /\
  Threshold.alert_branch 70 (Threshold.Thresholds 70 180) = Threshold.InRange /\
  Threshold.alert_branch (699 # 10) (Threshold.Thresholds 70 180) = Threshold.Low /\
  Threshold.alert_branch (1801 # 10) (Threshold.Thresholds 70 180) = Threshold.High /\
  (forall s kind,
     Threshold.limits s = t ->
     Threshold.alert_fired s = Some kind ->
     exists g, Threshold.current_sgv s = Some g /\
       Threshold.alert_branch g t <> Threshold.InRange /\
       (kind = "low"%string <-> g < Threshold.low t) /\
       (kind = "high"%string <-> Threshold.high t < g)).
Proof.
  assert (fixed : Threshold.low (Threshold.Thresholds 70 180)
                  < Threshold.high (Threshold.Thresholds 70 180))
    by reflexivity.
  split; [apply alert_branch_low; assumption |].
  split; [apply alert_branch_high |].
  split.
  { rewrite (alert_branch_in_range t). split.
    - intros [Hl Hh]. split; apply Qle_not_lt; assumption.
    - intros [Hl Hh]. split; apply Qnot_lt_le; assumption. }
  split.
  { intros [E | E]; apply (alert_branch_in_range t); rewrite E;
      split; try apply Qle_refl; apply Qlt_le_weak; assumption. }
  split; [apply alert_branch_refines_contract; assumption |].
  split; [rewrite (alert_branch_refines_contract _ fixed); reflexivity |].
  do 4 (split; [reflexivity |]).
  intros s kind Hlim Hfired.
  destruct (alert_fired_inv s kind Hfired) as (g & Hg & Hkind).
  rewrite Hlim in Hkind.
  exists g. split; [assumption |].
  rewrite <- (alert_branch_low t ordered g), <- (alert_branch_high t g).
  destruct Hkind as [[-> Hb] | [-> Hb]]; rewrite Hb;
    (split; [discriminate |]); split; split; intros; congruence.
Qed.

Lemma classify_half_open_witness :
  Threshold.low (Threshold.Thresholds 70 180)
    < Threshold.high (Threshold.Thresholds 70 180) /\
  Threshold.alert_branch 70 (Threshold.Thresholds 70 180) = Threshold.InRange.
Proof.
  split; [reflexivity |].
  destruct (classify_half_open 70 (Threshold.Thresholds 70 180))
    as (_ & _ & _ & Hbound & _); [reflexivity |].
  apply Hbound. left. reflexivity.
Defined.

(** ** Statistics *)

Section StatisticsFacts.

Import DataProcessor.

Lemma count_cons (x : Q) (xs : list Q) : count (x :: xs) == 1 + count xs.
Proof.
  unfold count. simpl List.length.
  rewrite Nat2Z.inj_succ, <- Z.add_1_l, inject_Z_plus. reflexivity.
Qed.

Lemma count_nonneg (xs : list Q) : 0 <= count xs.
Proof.
  unfold count. change 0 with (inject_Z 0).
  rewrite <- Zle_Qle. apply Nat2Z.is_nonneg.
Qed.

Lemma count_pos (x : Q) (xs : list Q) : 0 < count (x :: xs).
Proof.
  rewrite count_cons. pose proof (count_nonneg xs). lra.
Qed.

Lemma total_lower (m : Q) (xs : list Q) :
  Forall (fun y => m <= y) xs -> m * count xs <= total xs.
Proof.
  induction 1 as [| y ys Hy _ IH].
  - unfold count, total. simpl. change (inject_Z 0) with 0. lra.
  - change (total (y :: ys)) with (y + total ys).
    rewrite count_cons. lra.
Qed.

Lemma total_upper (m : Q) (xs : list Q) :
  Forall (fun y => y <= m) xs -> total xs <= m * count xs.
Proof.
  induction 1 as [| y ys Hy _ IH].
  - unfold count, total. simpl. change (inject_Z 0) with 0. lra.
  - change (total (y :: ys)) with (y + total ys).
    rewrite count_cons. lra.
Qed.

Lemma min_from_le_start (xs : list Q) (x : Q) : min_from x xs <= x.
Proof.
  revert x. induction xs as [| a xs IH]; intros x; simpl.
  - apply Qle_refl.
  - apply Qle_trans with (Qmin x a); [apply IH | apply Q.le_min_l].
Qed.

Lemma min_from_le (xs : list Q) (x : Q) :
  Forall (fun y => min_from x xs <= y) (x :: xs).
Proof.
  constructor; [apply min_from_le_start |].
  revert x. induction xs as [| a xs IH]; intros x; simpl; constructor.
  - apply Qle_trans with (Qmin x a);
      [apply min_from_le_start | apply Q.le_min_r].
  - apply IH.
Qed.

Lemma max_from_ge_start (xs : list Q) (x : Q) : x <= max_from x xs.
Proof.
  revert x. induction xs as [| a xs IH]; intros x; simpl.
  - apply Qle_refl.
  - apply Qle_trans with (Qmax x a); [apply Q.le_max_l | apply IH].
Qed.

Lemma max_from_ge (xs : list Q) (x : Q) :
  Forall (fun y => y <= max_from x xs) (x :: xs).
Proof.
  constructor; [apply max_from_ge_start |].
  revert x. induction xs as [| a xs IH]; intros x; simpl; constructor.
  - apply Qle_trans with (Qmax x a);
      [apply Q.le_max_r | apply max_from_ge_start].
  - apply IH.
Qed.

Lemma mean_between (x : Q) (xs : list Q) :
  min_from x xs <= mean (x :: xs) /\ mean (x :: xs) <= max_from x xs.
Proof.
  unfold mean. split.
  - apply Qle_shift_div_l; [apply count_pos |].
    apply total_lower, min_from_le.
  - apply Qle_shift_div_r; [apply count_pos |].
    apply total_upper, max_from_ge.
Qed.

Lemma true_count_le (bs : list bool) :
  (List.length (filter (fun b => b) bs) <= List.length bs)%nat.
Proof.
  induction bs as [| [|] bs IH]; simpl; lia.
Qed.

Lemma fraction_unit (b : bool) (bs : list bool) :
  0 <= fraction (b :: bs) /\ fraction (b :: bs) <= 1.
Proof.
  unfold fraction.
  set (k := inject_Z (Z.of_nat (List.length (filter (fun c => c) (b :: bs))))).
  set (n := inject_Z (Z.of_nat (List.length (b :: bs)))).
  assert (Hk : 0 <= k).
  { unfold k. change 0 with (inject_Z 0).
    rewrite <- Zle_Qle. apply Nat2Z.is_nonneg. }
  assert (Hkn : k <= n).
  { unfold k, n. rewrite <- Zle_Qle. apply Nat2Z.inj_le, true_count_le. }
  assert (Hn : 0 < n).
  { unfold n. change 0 with (inject_Z 0). rewrite <- Zlt_Qlt.
    simpl List.length. lia. }
  split.
  - apply Qle_shift_div_l; [assumption | lra].
  - apply Qle_shift_div_r; [assumption | lra].
Qed.

Lemma filter_map_true {A : Type} (f : A -> bool) (xs : list A) :
  List.length (filter (fun b => b) (map f xs)) = List.length (filter f xs).
Proof.
  induction xs as [| a xs IH]; simpl; [reflexivity |].
  destruct (f a); simpl; congruence.
Qed.

Lemma in_target_spec (v : Q) : in_target v = true <-> 70 <= v /\ v <= 180.
Proof.
  unfold in_target. rewrite andb_true_iff, !leb_spec. reflexivity.
Qed.

End StatisticsFacts.

(** C5.  On an empty series [calculate_statistics] returns the empty
    dictionary: no key is bound, so no number (neither a NaN nor a zero)
    reaches the caller, and [display_statistics] answers it with the
    no-data warning.  The empty dictionary is returned for the empty
    series only. *)
Theorem summarize_empty (df : DataProcessor.frame)
  (no_rows : DataProcessor.empty df = true) :
  DataProcessor.calculate_statistics df = [] /\
  (forall key,
     DataProcessor.lookup key (DataProcessor.calculate_statistics df) = None) /\
  DataProcessor.display_statistics (DataProcessor.calculate_statistics df)
    = DataProcessor.NoDataWarning /\
  (forall df', DataProcessor.calculate_statistics df' = [] ->
               DataProcessor.empty df' = true).
Proof.
  unfold DataProcessor.empty in no_rows.
  unfold DataProcessor.calculate_statistics at 1 2 3.
  destruct (DataProcessor.sgv df); [| discriminate].
  repeat split.
  intros df'. unfold DataProcessor.calculate_statistics, DataProcessor.empty.
  destruct (DataProcessor.sgv df'); [reflexivity | discriminate].
Qed.

Lemma summarize_empty_witness :
  DataProcessor.empty (DataProcessor.Frame [] [] None None None) = true /\
  DataProcessor.calculate_statistics (DataProcessor.Frame [] [] None None None)
    = [].
Proof.
  split; [reflexivity |].
  apply (summarize_empty (DataProcessor.Frame [] [] None None None)).
  reflexivity.
Defined.

(** ** Rolling enrichment *)

Section RollingFacts.

Import DataProcessor.

Variable w : nat.
Variable agg : list Q -> pyfloat.

Lemma rolling_length (xs : list Q) :
  List.length (rolling w agg xs) = List.length xs.
Proof.
  unfold rolling. rewrite length_map, length_seq. reflexivity.
Qed.

Lemma rolling_nth (xs : list Q) (i : nat) :
  (i < List.length xs)%nat ->
  nth_error (rolling w agg xs) i
  = Some (match window_at w xs i with
          | Some win => agg win
          | None => NaN
          end).
Proof.
  intros Hi. unfold rolling.
  rewrite nth_error_map, nth_error_seq.
  apply Nat.ltb_lt in Hi. rewrite Hi. reflexivity.
Qed.

Lemma window_absent (xs : list Q) (i : nat) :
  (i + 1 < w)%nat -> window_at w xs i = None.
Proof.
  intros Hi. unfold window_at.
  destruct (Nat.leb_spec w (i + 1)); [lia | reflexivity].
Qed.

Lemma window_present (xs : list Q) (i : nat) :
  (w <= i + 1)%nat -> (i < List.length xs)%nat ->
  window_at w xs i = Some (firstn w (skipn (i + 1 - w) xs)) /\
  List.length (firstn w (skipn (i + 1 - w) xs)) = w.
Proof.
  intros Hw Hi. unfold window_at.
  destruct (Nat.leb_spec w (i + 1)); [| lia].
  split; [reflexivity |].
  rewrite length_firstn, length_skipn. lia.
Qed.

End RollingFacts.

Lemma std_defined (win : list Q) :
  (2 <= List.length win)%nat ->
  exists radicand, DataProcessor.std win = DataProcessor.SqrtOf radicand.
Proof.
  destruct win as [| a [| b rest]]; simpl; try lia.
  intros _. eexists. reflexivity.
Qed.

(** C4.  [process_glucose_data] attaches [rolling_avg] and [rolling_std]
    columns computed over the trailing window of exactly 12 samples: at
    each of the first 11 positions both carry the missing-value marker
    (which is not the number zero), and at every later position the
    average is the mean of the 12 samples ending there and the deviation is
    defined.  On a 20-sample series positions 12 to 20 (indices 11 to 19)
    are therefore defined. *)
Theorem enrich_rolling_window (df : DataProcessor.frame) (i : nat)
  (in_series : (i < List.length (DataProcessor.sgv df))%nat) :
  exists avg sd,
    DataProcessor.rolling_avg (DataProcessor.process_glucose_data df) = Some avg /\
    DataProcessor.rolling_std (DataProcessor.process_glucose_data df) = Some sd /\
    List.length avg = List.length (DataProcessor.sgv df) /\
    List.length sd = List.length (DataProcessor.sgv df) /\
    ((i < 11)%nat ->
       nth_error avg i = Some DataProcessor.NaN /\
       nth_error sd i = Some DataProcessor.NaN /\
       DataProcessor.NaN <> DataProcessor.Num 0) /\
    ((11 <= i)%nat ->
       let win := firstn 12 (skipn (i - 11) (DataProcessor.sgv df)) in
       List.length win = 12%nat /\
       nth_error avg i = Some (DataProcessor.Num (DataProcessor.mean win)) /\
       nth_error sd i = Some (DataProcessor.std win) /\
       exists radicand, DataProcessor.std win = DataProcessor.SqrtOf radicand) /\
    (List.length (DataProcessor.sgv df) = 20%nat ->
       forall j, (11 <= j < 20)%nat ->
         exists m radicand,
           nth_error avg j = Some (DataProcessor.Num m) /\
           nth_error sd j = Some (DataProcessor.SqrtOf radicand)).
Proof.
  unfold DataProcessor.process_glucose_data, DataProcessor.empty.
  destruct (DataProcessor.sgv df) as [| x xs] eqn:E; [simpl in in_series; lia |].
  rewrite <- E in *. cbn [DataProcessor.rolling_avg DataProcessor.rolling_std].
  do 2 eexists.
  split; [reflexivity |]. split; [reflexivity |].
  split; [apply rolling_length |]. split; [apply rolling_length |].
  assert (defined : forall j, (11 <= j)%nat ->
            (j < List.length (DataProcessor.sgv df))%nat ->
            let win := firstn 12 (skipn (j - 11) (DataProcessor.sgv df)) in
            List.length win = 12%nat /\
            nth_error (DataProcessor.rolling 12
                         (fun win => DataProcessor.Num (DataProcessor.mean win))
                         (DataProcessor.sgv df)) j
              = Some (DataProcessor.Num (DataProcessor.mean win)) /\
            nth_error (DataProcessor.rolling 12 DataProcessor.std
                         (DataProcessor.sgv df)) j
              = Some (DataProcessor.std win) /\
            exists radicand,
              DataProcessor.std win = DataProcessor.SqrtOf radicand).
  { intros j Hj Hlen win.
    destruct (window_present 12 (DataProcessor.sgv df) j) as [Hwin Hsize];
      [lia | assumption |].
    replace (j + 1 - 12)%nat with (j - 11)%nat in Hwin, Hsize by lia.
    fold win in Hwin, Hsize.
    split; [exact Hsize |].
    rewrite !rolling_nth by assumption. rewrite Hwin.
    repeat split. apply std_defined. lia. }
  split; [| split].
  - intros Hi.
    rewrite !rolling_nth by assumption.
    rewrite window_absent by lia.
    repeat split. discriminate.
  - intros Hi. apply defined; assumption.
  - intros Hlen j Hj.
    destruct (defined j) as (_ & Ha & Hs & radicand & Hr); [lia | lia |].
    do 2 eexists. rewrite Ha, Hs, Hr. split; reflexivity.
Qed.

Lemma enrich_rolling_window_witness :
  (11 < List.length (DataProcessor.sgv
     (DataProcessor.Frame (map (fun n => inject_Z (Z.of_nat n)) (seq 100 20))
                          (map Z.of_nat (seq 0 20)) None None None)))%nat /\
  exists avg,
    DataProcessor.rolling_avg
      (DataProcessor.process_glucose_data
         (DataProcessor.Frame (map (fun n => inject_Z (Z.of_nat n)) (seq 100 20))
                              (map Z.of_nat (seq 0 20)) None None None))
      = Some avg /\
    List.length avg = 20%nat.
Proof.
  split; [simpl; lia |].
  destruct (enrich_rolling_window
              (DataProcessor.Frame
                 (map (fun n => inject_Z (Z.of_nat n)) (seq 100 20))
                 (map Z.of_nat (seq 0 20)) None None None) 11)
    as (avg & sd & Havg & _ & Hlen & _); [simpl; lia |].
  exists avg. split; [exact Havg | exact Hlen].
Defined.

(** ** Alert dispatch *)

Section DispatchFacts.

Import AlertManager Channels.

Variable w : world.

Ltac cases_of_world :=
  destruct w as [[sid token number password] ctor create smtp];
  cbn in *.

(** [_initialize_client] overwrites all three attributes from the world,
    so running it again changes nothing. *)
Lemma initialize_idempotent (st : cls) :
  final (_initialize_client w (final (_initialize_client w st)))
  = final (_initialize_client w st).
Proof.
  cases_of_world.
  destruct sid as [[| ? ?] |], token as [[| ? ?] |], ctor as [? |],
           password as [[| ? ?] |]; reflexivity.
Qed.

Lemma sms_gate_stable (st : cls) :
  attrs_at_sms_gate w (attrs_at_sms_gate w st) = attrs_at_sms_gate w st.
Proof.
  unfold attrs_at_sms_gate.
  destruct (Py.is_not_None (client st)) eqn:E; [rewrite E; reflexivity |].
  destruct (Py.is_not_None (client (final (_initialize_client w st))));
    [reflexivity | apply initialize_idempotent].
Qed.

(** The SMS half: its result, the attributes it leaves, its attempts. *)
Lemma sms_step_spec (to_number : option string) (a : alert) (st : cls) :
  let r := sms_step w to_number a st in
  result r = sms_configured w st to_number && sms_accepted w to_number /\
  final r = attrs_at_email_gate w st to_number /\
  existsb is_sms_attempt (trace r) = sms_configured w st to_number /\
  existsb is_email_attempt (trace r) = false.
Proof.
  unfold sms_configured, attrs_at_email_gate, attrs_at_sms_gate, sms_accepted.
  cbv zeta. unfold result, final, trace.
  destruct to_number as [[| c dest] |];
    [cbn; repeat split; reflexivity | | cbn; repeat split; reflexivity].
  destruct st as [[cl |] fn pw]; cases_of_world.
  - destruct fn as [[| ? ?] |]; cbn;
      try destruct (create (String c dest)); repeat split; reflexivity.
  - destruct sid as [[| ? ?] |], token as [[| ? ?] |], ctor as [? |],
             password as [[| ? ?] |], number as [[| ? ?] |];
      cbn; try destruct (create (String c dest)); repeat split; reflexivity.
Qed.

(** The e-mail half. *)
Lemma email_step_spec (to_email : option string) (a : alert) (st : cls) :
  let r := email_step w to_email a st in
  result r = Py.truthy to_email && Py.truthy (email_password st)
             && email_accepted w to_email /\
  final r = st /\
  existsb is_email_attempt (trace r)
    = Py.truthy to_email && Py.truthy (email_password st) /\
  existsb is_sms_attempt (trace r) = false.
Proof.
  unfold email_accepted. cbv zeta. unfold result, final, trace.
  destruct to_email as [[| c dest] |];
    [cbn; repeat split; reflexivity | | cbn; repeat split; reflexivity].
  destruct st as [cl fn [[| ? ?] |]]; cases_of_world;
    try destruct (smtp (String c dest)); repeat split; reflexivity.
Qed.

(** [send_glucose_alert] is the SMS half followed by the e-mail half. *)
Lemma send_glucose_alert_unfold
  (to_number : option string) (a : alert) (to_email : option string)
  (st : cls) :
  let r1 := sms_step w to_number a st in
  let r2 := email_step w to_email a (final r1) in
  send_glucose_alert w to_number a to_email st
  = (result r1 || result r2, final r2, (trace r1 ++ trace r2)%list).
Proof.
  unfold send_glucose_alert, bind, ret, result, final, trace.
  destruct (sms_step w to_number a st) as [[b1 st1] t1]. cbn.
  destruct (email_step w to_email a st1) as [[b2 st2] t2]. cbn.
  rewrite app_nil_r. reflexivity.
Qed.

(** The whole dispatch in terms of the two channels. *)
Lemma dispatch_spec
  (to_number : option string) (a : alert) (to_email : option string)
  (st : cls) :
  let r := send_glucose_alert w to_number a to_email st in
  result r
    = (sms_configured w st to_number && sms_accepted w to_number)
      || (email_configured w st to_number to_email
          && email_accepted w to_email) /\
  existsb is_sms_attempt (trace r) = sms_configured w st to_number /\
  existsb is_email_attempt (trace r)
    = email_configured w st to_number to_email.
Proof.
  cbv zeta. rewrite send_glucose_alert_unfold. cbv zeta.
  destruct (sms_step_spec to_number a st) as (R1 & F1 & S1 & E1).
  destruct (email_step_spec to_email a (final (sms_step w to_number a st)))
    as (R2 & F2 & E2 & S2).
  change (result (?b, ?s, ?t)) with b.
  change (trace (?b, ?s, ?t)) with t.
  rewrite !existsb_app, R1, R2, S1, S2, E1, E2, F1.
  unfold email_configured.
  rewrite orb_false_r. repeat split; reflexivity.
Qed.

End DispatchFacts.

Section DispatchReports.

Import AlertManager Channels.
Local Open Scope string_scope.

Variable w : world.

Ltac cases_of_world :=
  destruct w as [[sid token number password] ctor create smtp];
  cbn in *.

Lemma trace_of_dispatch
  (to_number : option string) (a : alert) (to_email : option string)
  (st : cls) :
  trace (send_glucose_alert w to_number a to_email st)
  = (trace (sms_step w to_number a st)
     ++ trace (email_step w to_email a
                 (attrs_at_email_gate w st to_number)))%list.
Proof.
  rewrite send_glucose_alert_unfold. cbv zeta.
  destruct (sms_step_spec w to_number a st) as (_ & F1 & _).
  rewrite F1. reflexivity.
Qed.

Lemma sms_failure_reported
  (dest : string) (a : alert) (st : cls) (e : Py.exn) :
  sms_configured w st (Some dest) = true ->
  messages_create w dest = inr e ->
  In (Print ("Failed to send SMS alert: " ++ Py.exn_msg e))
     (trace (sms_step w (Some dest) a st)).
Proof.
  unfold sms_configured, attrs_at_sms_gate, trace.
  destruct dest as [| c dest]; [discriminate |].
  destruct st as [[cl |] fn pw]; cases_of_world.
  - destruct fn as [[| ? ?] |]; cbn; try discriminate.
    intros _ ->. cbn. auto.
  - destruct sid as [[| ? ?] |], token as [[| ? ?] |], ctor as [? |],
             password as [[| ? ?] |], number as [[| ? ?] |];
      cbn; try discriminate; intros _ ->; cbn; auto 6.
Qed.

Lemma sms_skip_reported (to_number : option string) (a : alert) (st : cls) :
  Py.truthy to_number = true ->
  sms_configured w st to_number = false ->
  In (Print "SMS alerts not configured properly")
     (trace (sms_step w to_number a st)).
Proof.
  unfold sms_configured, attrs_at_sms_gate, trace.
  destruct to_number as [[| c dest] |]; try discriminate.
  intros _.
  destruct st as [[cl |] fn pw]; cases_of_world.
  - destruct fn as [[| ? ?] |]; cbn; try discriminate; auto.
  - destruct sid as [[| ? ?] |], token as [[| ? ?] |], ctor as [? |],
             password as [[| ? ?] |], number as [[| ? ?] |];
      cbn; try discriminate; auto 6.
Qed.

Lemma email_failure_reported
  (dest : string) (a : alert) (st : cls) (e : Py.exn) :
  Py.truthy (Some dest) = true ->
  Py.truthy (email_password st) = true ->
  smtp_session w dest = Some e ->
  In (Print ("Failed to send email alert: " ++ Py.exn_msg e))
     (trace (email_step w (Some dest) a st)).
Proof.
  unfold trace.
  destruct dest as [| c dest]; [discriminate |]. intros _.
  destruct st as [cl fn [[| ? ?] |]]; try discriminate.
  cases_of_world. intros _ ->. cbn. auto.
Qed.

Lemma email_skip_reported (to_email : option string) (a : alert) (st : cls) :
  Py.truthy to_email = true ->
  Py.truthy (email_password st) = false ->
  In (Print "Email password not configured, cannot send email alerts.")
     (trace (email_step w to_email a st)).
Proof.
  unfold trace.
  destruct to_email as [[| c dest] |]; try discriminate. intros _.
  destruct st as [cl fn [[| ? ?] |]]; try discriminate; cbn; auto.
Qed.

Lemma silent_without_recipient
  (to_number to_email : option string) (a : alert) (st : cls) :
  Py.truthy to_number = false ->
  Py.truthy to_email = false ->
  trace (send_glucose_alert w to_number a to_email st) = [].
Proof.
  destruct to_number as [[| ? ?] |], to_email as [[| ? ?] |];
    try discriminate; reflexivity.
Qed.

(** When [can_send_alerts] answers [False], no channel is configured for
    any later call. *)
Lemma can_send_alerts_false (st : cls) :
  result (can_send_alerts w st) = false ->
  forall to_number to_email,
    sms_configured w (final (can_send_alerts w st)) to_number = false /\
    email_configured w (final (can_send_alerts w st)) to_number to_email
      = false.
Proof.
  unfold sms_configured, email_configured, attrs_at_email_gate,
    attrs_at_sms_gate, result, final.
  destruct st as [[cl |] [fn |] [pw |]]; cases_of_world;
    try discriminate;
    destruct sid as [[| ? ?] |], token as [[| ? ?] |], ctor as [? |],
             password as [[| ? ?] |], number as [[| ? ?] |];
    cbn; try discriminate; intros _ tn te;
    destruct tn as [[| ? ?] |], te as [[| ? ?] |]; split; reflexivity.
Qed.

End DispatchReports.

(** C1.  For every alert, recipients, class state and outside world,
    [send_glucose_alert] attempts exactly the configured channels and
    returns [True] if and only if the send on at least one configured
    channel succeeds.  Whether the e-mail channel is attempted does not
    depend on what the SMS send answers (and the other way round), so when
    the SMS channel is configured and fails while the e-mail channel is
    configured and succeeds, the result is [True] and the SMS failure is
    printed. *)
Theorem dispatch_at_least_one
  (w : AlertManager.world) (st : AlertManager.cls)
  (to_number : option string) (a : AlertManager.alert)
  (to_email : option string) :
  let r := AlertManager.send_glucose_alert w to_number a to_email st in
  existsb Channels.is_sms_attempt (AlertManager.trace r)
    = Channels.sms_configured w st to_number /\
  existsb Channels.is_email_attempt (AlertManager.trace r)
    = Channels.email_configured w st to_number to_email /\
  (AlertManager.result r = true <->
     (Channels.sms_configured w st to_number = true /\
      Channels.sms_accepted w to_number = true) \/
     (Channels.email_configured w st to_number to_email = true /\
      Channels.email_accepted w to_email = true)) /\
  (forall create',
     let w' := {| AlertManager.env := AlertManager.env w;
                  AlertManager.client_ctor := AlertManager.client_ctor w;
                  AlertManager.messages_create := create';
                  AlertManager.smtp_session := AlertManager.smtp_session w |} in
     existsb Channels.is_email_attempt
       (AlertManager.trace
          (AlertManager.send_glucose_alert w' to_number a to_email st))
     = existsb Channels.is_email_attempt (AlertManager.trace r)) /\
  (forall smtp',
     let w' := {| AlertManager.env := AlertManager.env w;
                  AlertManager.client_ctor := AlertManager.client_ctor w;
                  AlertManager.messages_create := AlertManager.messages_create w;
                  AlertManager.smtp_session := smtp' |} in
     existsb Channels.is_sms_attempt
       (AlertManager.trace
          (AlertManager.send_glucose_alert w' to_number a to_email st))
     = existsb Channels.is_sms_attempt (AlertManager.trace r)) /\
  (forall dest e,
     to_number = Some dest ->
     Channels.sms_configured w st to_number = true ->
     AlertManager.messages_create w dest = inr e ->
     Channels.email_configured w st to_number to_email = true ->
     Channels.email_accepted w to_email = true ->
     AlertManager.result r = true /\
     In (AlertManager.Print
           ("Failed to send SMS alert: " ++ Py.exn_msg e)%string)
        (AlertManager.trace r)) /\
  (Channels.email_configured w st to_number to_email = true ->
   Channels.email_accepted w to_email = false ->
   Channels.sms_configured w st to_number = true ->
   Channels.sms_accepted w to_number = true ->
   AlertManager.result r = true).
Proof.
  intros r.
  destruct (dispatch_spec w to_number a to_email st) as (R & S & E).
  fold r in R, S, E.
  assert (iff_ok : AlertManager.result r = true <->
     (Channels.sms_configured w st to_number = true /\
      Channels.sms_accepted w to_number = true) \/
     (Channels.email_configured w st to_number to_email = true /\
      Channels.email_accepted w to_email = true)).
  { rewrite R, orb_true_iff, !andb_true_iff. reflexivity. }
  split; [exact S |]. split; [exact E |]. split; [exact iff_ok |].
  split.
  { intros create' w'.
    destruct (dispatch_spec w' to_number a to_email st) as (_ & _ & E').
    rewrite E', E. destruct w. reflexivity. }
  split.
  { intros smtp' w'.
    destruct (dispatch_spec w' to_number a to_email st) as (_ & S' & _).
    rewrite S', S. destruct w. reflexivity. }
  split.
  - intros dest e -> Hs Hc He Ha. split.
    + apply iff_ok. right. split; assumption.
    + unfold r. rewrite trace_of_dispatch. apply in_or_app. left.
      apply sms_failure_reported; assumption.
  - intros He _ Hs Ha. apply iff_ok. left. split; assumption.
Qed.

Lemma dispatch_at_least_one_witness :
  let r := AlertManager.send_glucose_alert Samples.sms_down Samples.phone
             Samples.high_alert Samples.mailbox
             (Samples.checked Samples.sms_down) in
  Channels.sms_configured Samples.sms_down (Samples.checked Samples.sms_down)
    Samples.phone = true /\
  Channels.sms_accepted Samples.sms_down Samples.phone = false /\
  AlertManager.result r = true /\
  In (AlertManager.Print "Failed to send SMS alert: unreachable")
     (AlertManager.trace r).
Proof.
  intros r.
  split; [reflexivity |]. split; [reflexivity |].
  destruct (dispatch_at_least_one Samples.sms_down
              (Samples.checked Samples.sms_down) Samples.phone
              Samples.high_alert Samples.mailbox)
    as (_ & _ & _ & _ & _ & H & _).
  apply (H "+15550100"%string
           (Py.Exn (Py.OtherExc "TwilioRestException") "unreachable"));
    reflexivity.
Defined.

(** C6, as the code has it.  With no channel configured
    [send_glucose_alert] returns [False] and makes no send call, so it
    never reports success.  The returned value is a bare boolean: the
    configuration cause is only printed, one line for each channel whose
    recipient was given, and nothing at all is printed when no recipient
    is given.  In particular every dispatch that follows a
    [can_send_alerts] answering [False] returns [False]. *)
Theorem dispatch_unconfigured
  (w : AlertManager.world) (st : AlertManager.cls)
  (to_number : option string) (a : AlertManager.alert)
  (to_email : option string)
  (no_sms : Channels.sms_configured w st to_number = false)
  (no_email : Channels.email_configured w st to_number to_email = false) :
  let r := AlertManager.send_glucose_alert w to_number a to_email st in
  AlertManager.result r = false /\
  existsb Channels.is_sms_attempt (AlertManager.trace r) = false /\
  existsb Channels.is_email_attempt (AlertManager.trace r) = false /\
  (Py.truthy to_number = true ->
   In (AlertManager.Print "SMS alerts not configured properly")
      (AlertManager.trace r)) /\
  (Py.truthy to_email = true ->
   In (AlertManager.Print
         "Email password not configured, cannot send email alerts.")
      (AlertManager.trace r)) /\
  (Py.truthy to_number = false -> Py.truthy to_email = false ->
   AlertManager.trace r = []) /\
  (forall st0 to_number' to_email',
     AlertManager.result (AlertManager.can_send_alerts w st0) = false ->
     AlertManager.result
       (AlertManager.send_glucose_alert w to_number' a to_email'
          (AlertManager.final (AlertManager.can_send_alerts w st0))) = false).
Proof.
  intros r.
  destruct (dispatch_spec w to_number a to_email st) as (R & S & E).
  fold r in R, S, E.
  split; [rewrite R, no_sms, no_email; reflexivity |].
  split; [rewrite S; exact no_sms |].
  split; [rewrite E; exact no_email |].
  split.
  { intros Hn. unfold r. rewrite trace_of_dispatch. apply in_or_app. left.
    apply sms_skip_reported; assumption. }
  split.
  { intros He. unfold r. rewrite trace_of_dispatch. apply in_or_app. right.
    apply email_skip_reported; [assumption |].
    unfold Channels.email_configured in no_email.
    rewrite He in no_email. exact no_email. }
  split.
  { intros Hn He. apply silent_without_recipient; assumption. }
  intros st0 tn te Hno.
  destruct (can_send_alerts_false w st0 Hno tn te) as [Hs He].
  destruct (dispatch_spec w tn a te
              (AlertManager.final (AlertManager.can_send_alerts w st0)))
    as (R' & _).
  rewrite R', Hs, He. reflexivity.
Qed.

Lemma dispatch_unconfigured_witness :
  Channels.sms_configured Samples.bare AlertManager.fresh Samples.phone
    = false /\
  Channels.email_configured Samples.bare AlertManager.fresh Samples.phone
    Samples.mailbox = false /\
  AlertManager.result
    (AlertManager.send_glucose_alert Samples.bare Samples.phone
       Samples.high_alert Samples.mailbox AlertManager.fresh) = false.
Proof.
  split; [reflexivity |]. split; [reflexivity |].
  apply (dispatch_unconfigured Samples.bare AlertManager.fresh Samples.phone
           Samples.high_alert Samples.mailbox); reflexivity.
Defined.

(** C6, as the specification states it, fails: the value returned when no
    channel is configured is the very value returned when both channels
    are configured and both sends fail, so no reading of the result tells
    a configuration failure from a delivery failure. *)
Lemma dispatch_unconfigured_result_has_no_reason :
  Channels.sms_configured Samples.bare AlertManager.fresh Samples.phone
    = false /\
  Channels.email_configured Samples.bare AlertManager.fresh Samples.phone
    Samples.mailbox = false /\
  ~ exists reason_of : bool -> Channels.error_kind,
      reason_of
        (AlertManager.result
           (AlertManager.send_glucose_alert Samples.bare Samples.phone
              Samples.high_alert Samples.mailbox AlertManager.fresh))
        = Channels.ConfigurationError /\
      reason_of
        (AlertManager.result
           (AlertManager.send_glucose_alert Samples.all_down Samples.phone
              Samples.high_alert Samples.mailbox
              (Samples.checked Samples.all_down)))
        = Channels.DeliveryError.
Proof.
  split; [reflexivity |]. split; [reflexivity |].
  intros (reason_of & Hc & Hd).
  change (reason_of false = Channels.ConfigurationError) in Hc.
  change (reason_of false = Channels.DeliveryError) in Hd.
  congruence.
Qed.

(** C7, as the code has it.  A channel that is not configured is skipped:
    no send is attempted on it, and the result of the dispatch is the
    result of the other channel alone.  The returned boolean does not say
    whether a channel was skipped or was attempted and failed; only the
    printed line does: a skipped channel prints its configuration line, a
    failed attempt prints a line that starts with "Failed to send". *)
Theorem skipped_channel_not_attempted
  (w : AlertManager.world) (st : AlertManager.cls)
  (to_number : option string) (a : AlertManager.alert)
  (to_email : option string) :
  let r := AlertManager.send_glucose_alert w to_number a to_email st in
  (Channels.sms_configured w st to_number = false ->
   existsb Channels.is_sms_attempt (AlertManager.trace r) = false /\
   AlertManager.result r
     = Channels.email_configured w st to_number to_email
       && Channels.email_accepted w to_email) /\
  (Channels.email_configured w st to_number to_email = false ->
   existsb Channels.is_email_attempt (AlertManager.trace r) = false /\
   AlertManager.result r
     = Channels.sms_configured w st to_number
       && Channels.sms_accepted w to_number) /\
  (Py.truthy to_number = true ->
   Channels.sms_configured w st to_number = false ->
   In (AlertManager.Print "SMS alerts not configured properly")
      (AlertManager.trace r)) /\
  (Py.truthy to_email = true ->
   Channels.email_configured w st to_number to_email = false ->
   In (AlertManager.Print
         "Email password not configured, cannot send email alerts.")
      (AlertManager.trace r)) /\
  (forall dest e,
     to_number = Some dest ->
     Channels.sms_configured w st to_number = true ->
     AlertManager.messages_create w dest = inr e ->
     In (AlertManager.Print
           ("Failed to send SMS alert: " ++ Py.exn_msg e)%string)
        (AlertManager.trace r)) /\
  (forall dest e,
     to_email = Some dest ->
     Channels.email_configured w st to_number to_email = true ->
     AlertManager.smtp_session w dest = Some e ->
     In (AlertManager.Print
           ("Failed to send email alert: " ++ Py.exn_msg e)%string)
        (AlertManager.trace r)) /\
  (forall e,
     ("Failed to send SMS alert: " ++ Py.exn_msg e)%string
       <> "SMS alerts not configured properly"%string /\
     ("Failed to send email alert: " ++ Py.exn_msg e)%string
       <> "Email password not configured, cannot send email alerts."%string).
Proof.
  intros r.
  destruct (dispatch_spec w to_number a to_email st) as (R & S & E).
  fold r in R, S, E.
  split.
  { intros Hs. rewrite S, R, Hs. split; reflexivity. }
  split.
  { intros He. rewrite E, R, He. split; [reflexivity |].
    apply orb_false_r. }
  split.
  { intros Hn Hs. unfold r. rewrite trace_of_dispatch. apply in_or_app. left.
    apply sms_skip_reported; assumption. }
  split.
  { intros Ht He. unfold r. rewrite trace_of_dispatch. apply in_or_app.
    right. apply email_skip_reported; [assumption |].
    unfold Channels.email_configured in He. rewrite Ht in He. exact He. }
  split.
  { intros dest e -> Hs Hc. unfold r. rewrite trace_of_dispatch.
    apply in_or_app. left. apply sms_failure_reported; assumption. }
  split.
  { intros dest e -> He Hc. unfold r. rewrite trace_of_dispatch.
    apply in_or_app. right.
    unfold Channels.email_configured in He.
    apply andb_true_iff in He. destruct He as [Ht Hp].
    apply email_failure_reported; assumption. }
  intros e. split; discriminate.
Qed.

Lemma skipped_channel_not_attempted_witness :
  let r := AlertManager.send_glucose_alert Samples.bare None
             Samples.high_alert Samples.mailbox AlertManager.fresh in
  Channels.email_configured Samples.bare AlertManager.fresh None
    Samples.mailbox = false /\
  existsb Channels.is_email_attempt (AlertManager.trace r) = false /\
  In (AlertManager.Print
        "Email password not configured, cannot send email alerts.")
     (AlertManager.trace r).
Proof.
  intros r.
  destruct (skipped_channel_not_attempted Samples.bare AlertManager.fresh
              None Samples.high_alert Samples.mailbox)
    as (_ & Hskip & _ & Hline & _).
  split; [reflexivity |].
  split; [apply Hskip; reflexivity | apply Hline; reflexivity].
Defined.

(** C7, as the specification states it, fails: a dispatch whose e-mail
    channel is skipped (no password) and a dispatch whose e-mail channel
    is attempted and fails return the same value, so the result does not
    distinguish the two. *)
Lemma skipped_and_failed_return_alike :
  existsb Channels.is_email_attempt
    (AlertManager.trace
       (AlertManager.send_glucose_alert Samples.bare None
          Samples.high_alert Samples.mailbox AlertManager.fresh)) = false /\
  existsb Channels.is_email_attempt
    (AlertManager.trace
       (AlertManager.send_glucose_alert Samples.smtp_down None
          Samples.high_alert Samples.mailbox
          (Samples.checked Samples.smtp_down))) = true /\
  Channels.email_accepted Samples.smtp_down Samples.mailbox = false /\
  ~ exists report_of : bool -> Channels.channel_report,
      report_of
        (AlertManager.result
           (AlertManager.send_glucose_alert Samples.bare None
              Samples.high_alert Samples.mailbox AlertManager.fresh))
        = Channels.Skipped /\
      report_of
        (AlertManager.result
           (AlertManager.send_glucose_alert Samples.smtp_down None
              Samples.high_alert Samples.mailbox
              (Samples.checked Samples.smtp_down)))
        = Channels.AttemptedAndFailed.
Proof.
  split; [reflexivity |]. split; [reflexivity |]. split; [reflexivity |].
  intros (report_of & Hs & Hf).
  change (report_of false = Channels.Skipped) in Hs.
  change (report_of false = Channels.AttemptedAndFailed) in Hf.
  congruence.
Qed.

(** ** Telemetry client *)

Lemma handle_failure {A : Type} (prefix : string) (e : Py.exn) :
  NightscoutAPI.handle prefix (@inr A Py.exn e)
  = inr (if Py.is_RequestException e then Py.reraise prefix e else e).
Proof.
  unfold NightscoutAPI.handle. destruct (Py.is_RequestException e); reflexivity.
Qed.

(** C8, as the code has it.  When the exchange with the remote endpoint
    fails with a [requests.RequestException] (no connection, time-out,
    error status, undecodable body), [get_glucose_data] and
    [get_current_glucose] raise a plain [Exception] whose message is
    "Failed to fetch data from Nightscout: " or "Failed to fetch current
    glucose: " followed by the original message; an exception of another
    class leaves them unchanged.  Either way the exception reaches the
    caller, and [main] turns it into its error banner instead of failing.
    The raised class is the builtin [Exception], the class every
    [DatabaseManager] failure is raised with. *)
Theorem telemetry_failure_surfaces
  (a : NightscoutAPI.api) (now : NightscoutAPI.local_clock) (draws : NightscoutAPI.rng)
  (sample : NightscoutAPI.entry) (x : NightscoutAPI.exchange) (hours : Z)
  (e : Py.exn)
  (live : NightscoutAPI.dev_mode a = false)
  (failed : NightscoutAPI.fetch x = inr e) :
  let history_exn :=
    if Py.is_RequestException e
    then Py.reraise "Failed to fetch data from Nightscout: " e else e in
  let current_exn :=
    if Py.is_RequestException e
    then Py.reraise "Failed to fetch current glucose: " e else e in
  NightscoutAPI.get_glucose_data a now draws x hours = inr history_exn /\
  NightscoutAPI.get_current_glucose a sample x = inr current_exn /\
  (Py.is_RequestException e = true ->
   Py.exn_class history_exn = Py.BaseExc /\
   Py.exn_class current_exn = Py.BaseExc /\
   Py.exn_msg history_exn
     = ("Failed to fetch data from Nightscout: " ++ Py.exn_msg e)%string /\
   Py.exn_msg current_exn
     = ("Failed to fetch current glucose: " ++ Py.exn_msg e)%string) /\
  (Py.is_RequestException e = false ->
   history_exn = e /\ current_exn = e) /\
  (forall user history,
     App.main (inl user) (NightscoutAPI.get_current_glucose a sample x) history
     = App.ErrorBanner ("Error: " ++ Py.exn_msg current_exn)%string) /\
  (forall user current,
     App.main (inl user) (inl current)
       (NightscoutAPI.get_glucose_data a now draws x hours)
     = App.ErrorBanner ("Error: " ++ Py.exn_msg history_exn)%string) /\
  (forall db fault t email url phone,
     Py.exn_class
       (Py.reraise "Database error: " fault)
     = Py.BaseExc /\
     fst (DatabaseManager.get_or_create_user db (Some fault) t email url phone)
     = inr (Py.reraise "Database error: " fault)).
Proof.
  intros history_exn current_exn.
  assert (Hh : NightscoutAPI.get_glucose_data a now draws x hours
               = inr history_exn).
  { unfold NightscoutAPI.get_glucose_data. rewrite live, failed.
    apply handle_failure. }
  assert (Hc : NightscoutAPI.get_current_glucose a sample x = inr current_exn).
  { unfold NightscoutAPI.get_current_glucose. rewrite live, failed.
    apply handle_failure. }
  split; [exact Hh |]. split; [exact Hc |].
  split.
  { intros Hreq. unfold history_exn, current_exn. rewrite Hreq.
    repeat split. }
  split.
  { intros Hreq. unfold history_exn, current_exn. rewrite Hreq.
    split; reflexivity. }
  split; [intros; rewrite Hc; reflexivity |].
  split; [intros; rewrite Hh; reflexivity |].
  intros; split; reflexivity.
Qed.

Lemma telemetry_failure_surfaces_witness :
  NightscoutAPI.dev_mode (NightscoutAPI.init "https://ns.example.org/") = false /\
  NightscoutAPI.fetch
    (NightscoutAPI.GetRaises (Py.Exn Py.RequestExc "connection refused"))
  = inr (Py.Exn Py.RequestExc "connection refused") /\
  NightscoutAPI.get_glucose_data (NightscoutAPI.init "https://ns.example.org/")
    Samples.utc Samples.steady
    (NightscoutAPI.GetRaises (Py.Exn Py.RequestExc "connection refused")) 24
  = inr (Py.Exn Py.BaseExc
           "Failed to fetch data from Nightscout: connection refused").
Proof.
  split; [reflexivity |]. split; [reflexivity |].
  apply (telemetry_failure_surfaces
           (NightscoutAPI.init "https://ns.example.org/") Samples.utc Samples.steady
           (NightscoutAPI.Entry 100 0 "Flat")
           (NightscoutAPI.GetRaises (Py.Exn Py.RequestExc "connection refused"))
           24 (Py.Exn Py.RequestExc "connection refused"));
    reflexivity.
Defined.

(** C8, as the specification states it, fails: a refused connection leaves
    [get_glucose_data] as an exception of the same class as the one
    [get_or_create_user] raises on a database fault, so no test on the
    kind of the failure separates telemetry failures from the others. *)
Lemma telemetry_failure_has_no_kind_of_its_own :
  exists telemetry_exn database_exn,
    NightscoutAPI.get_glucose_data
      (NightscoutAPI.init "https://ns.example.org/") Samples.utc Samples.steady
      (NightscoutAPI.GetRaises (Py.Exn Py.RequestExc "connection refused")) 24
    = inr telemetry_exn /\
    fst (DatabaseManager.get_or_create_user
           (DatabaseManager.Database [] [] 1)
           (Some (Py.Exn (Py.OtherExc "OperationalError") "database is locked"))
           0 "pat@example.org" "https://ns.example.org/" None)
    = inr database_exn /\
    ~ exists is_telemetry : Py.exc_class -> bool,
        is_telemetry (Py.exn_class telemetry_exn) = true /\
        is_telemetry (Py.exn_class database_exn) = false.
Proof.
  do 2 eexists. split; [reflexivity |]. split; [reflexivity |].
  intros (is_telemetry & Ht & Hd). cbn in Ht, Hd. congruence.
Qed.


(** ** Persistence gateway *)

Section ReadingFacts.

Import DatabaseManager.
Local Open Scope Z_scope.

Lemma insert_desc_perm (r : GlucoseReading) (rs : list GlucoseReading) :
  Permutation (r :: rs) (insert_desc r rs).
Proof.
  induction rs as [| r' rest IH]; simpl; [reflexivity |].
  destruct (timestamp r' <=? timestamp r); [reflexivity |].
  rewrite perm_swap. apply perm_skip, IH.
Qed.

Lemma order_by_perm (rs : list GlucoseReading) :
  Permutation rs (order_by_timestamp_desc rs).
Proof.
  induction rs as [| r rest IH]; simpl; [reflexivity |].
  rewrite <- insert_desc_perm. apply perm_skip, IH.
Qed.

Lemma insert_desc_sorted (r : GlucoseReading) (rs : list GlucoseReading) :
  StronglySorted newer_first rs -> StronglySorted newer_first (insert_desc r rs).
Proof.
  induction 1 as [| r' rest Hsorted IH Hall]; simpl.
  - repeat constructor.
  - destruct (Z.leb_spec (timestamp r') (timestamp r)) as [Hle | Hgt].
    + constructor; [constructor; assumption |].
      constructor; [exact Hle |].
      rewrite Forall_forall in *. intros y Hy.
      unfold newer_first in *. specialize (Hall y Hy). lia.
    + constructor; [exact IH |].
      rewrite Forall_forall in *. intros y Hy.
      apply (Permutation_in _ (Permutation_sym (insert_desc_perm r rest)))
        in Hy.
      destruct Hy as [<- | Hy]; [unfold newer_first; lia | auto].
Qed.

Lemma order_by_sorted (rs : list GlucoseReading) :
  StronglySorted newer_first (order_by_timestamp_desc rs).
Proof.
  induction rs as [| r rest IH]; simpl; [constructor |].
  apply insert_desc_sorted, IH.
Qed.

Lemma selected_spec (uid since : Z) (r : GlucoseReading) :
  selected uid since r = true <-> user_id r = uid /\ since <= timestamp r.
Proof.
  unfold selected. rewrite andb_true_iff, Z.eqb_eq, Z.leb_le. reflexivity.
Qed.

End ReadingFacts.

(** C9, as the code has it.  For every user id and every number of hours,
    [get_user_readings] returns exactly the stored readings of that user
    whose timestamp is not earlier than that many hours before the current
    time, most recent first; no upper bound is applied, so a reading
    stamped after the current time is returned as well.
    [calculate_statistics] takes its [current] entry from the first
    element of the series. *)
Theorem list_readings_since
  (db : DatabaseManager.database) (now uid hours : Z) :
  exists rs,
    DatabaseManager.get_user_readings db None now uid hours = inl rs /\
    (forall r,
       In r rs <->
       In r (DatabaseManager.glucose_readings db) /\
       DatabaseManager.user_id r = uid /\
       (now - hours * 3600000000 <= DatabaseManager.timestamp r)%Z) /\
    Permutation rs
      (filter (DatabaseManager.selected uid (now - hours * 3600000000)%Z)
              (DatabaseManager.glucose_readings db)) /\
    StronglySorted DatabaseManager.newer_first rs /\
    (forall df first rest,
       DataProcessor.sgv df = first :: rest ->
       DataProcessor.lookup "current" (DataProcessor.calculate_statistics df)
       = Some (DataProcessor.Num first)).
Proof.
  eexists. split; [reflexivity |].
  unfold DatabaseManager.timedelta_hours.
  set (kept := filter _ _).
  split.
  { intros r. split.
    - intros Hin.
      apply (Permutation_in _ (Permutation_sym (order_by_perm kept))) in Hin.
      apply filter_In in Hin. rewrite selected_spec in Hin. exact Hin.
    - intros Hin.
      apply (Permutation_in _ (order_by_perm kept)).
      apply filter_In. rewrite selected_spec. exact Hin. }
  split; [symmetry; apply order_by_perm |].
  split; [apply order_by_sorted |].
  intros df first rest E.
  unfold DataProcessor.calculate_statistics. rewrite E. reflexivity.
Qed.

Lemma list_readings_since_witness :
  exists rs,
    DatabaseManager.get_user_readings DatabaseManager.sample_db None
      (100 * 3600000000) 1 6 = inl rs /\
    map DatabaseManager.reading_id rs = [4; 1]%Z.
Proof.
  destruct (list_readings_since DatabaseManager.sample_db
              (100 * 3600000000) 1 6) as (rs & Hrun & _).
  exists rs. split; [exact Hrun |].
  assert (E : inl rs
              = DatabaseManager.get_user_readings DatabaseManager.sample_db
                  None (100 * 3600000000) 1 6) by (symmetry; exact Hrun).
  vm_compute in E. injection E as ->. reflexivity.
Defined.

(** C9, as the claim states it, fails: six hours before the current time
    (hour 100) the store holds a reading of user 1 stamped at hour 101,
    one hour after the current time; it does not lie within the last six
    hours, and the query returns it. *)
Lemma reading_after_now_is_listed :
  let now := (100 * 3600000000)%Z in
  exists r rs,
    DatabaseManager.get_user_readings DatabaseManager.sample_db None now 1 6
    = inl rs /\
    In r rs /\
    ~ (now - 6 * 3600000000 <= DatabaseManager.timestamp r <= now)%Z.
Proof.
  intros now.
  exists (DatabaseManager.MkReading 4 1 (101 * 3600000000) 180
            "nightscout" None).
  eexists. split; [vm_compute; reflexivity |].
  split; [left; reflexivity |].
  unfold now. cbn. lia.
Qed.

Section UserFacts.

Import DatabaseManager.

Lemma first_by_email_found (e : string) (us : list User) (u : User) :
  first_by_email e us = Some u -> In u us /\ email u = e.
Proof.
  intros H. apply find_some in H. destruct H as [Hin Heq].
  apply String.eqb_eq in Heq. auto.
Qed.

Lemma write_back_found (e : string) (u' : User) (us : list User) (u : User) :
  first_by_email e us = Some u ->
  email u' = e ->
  first_by_email e (write_back e u' us) = Some u'.
Proof.
  intros Hfound He'. induction us as [| v rest IH]; [discriminate |].
  unfold first_by_email in *. simpl in *.
  destruct (String.eqb (email v) e) eqn:Ev.
  - simpl. rewrite He', String.eqb_refl. reflexivity.
  - simpl. rewrite Ev. apply IH, Hfound.
Qed.

Lemma write_back_others (e : string) (u' : User) (us : list User) (v : User) :
  In v us -> email v <> e -> In v (write_back e u' us).
Proof.
  intros Hin Hne. induction us as [| x rest IH]; [contradiction |].
  simpl. destruct (String.eqb (email x) e) eqn:Ex.
  - destruct Hin as [-> | Hin]; [| right; exact Hin].
    apply String.eqb_eq in Ex. contradiction.
  - destruct Hin as [-> | Hin]; [left; reflexivity | right; auto].
Qed.

Lemma write_back_length (e : string) (u' : User) (us : list User) :
  List.length (write_back e u' us) = List.length us.
Proof.
  induction us as [| x rest IH]; simpl; [reflexivity |].
  destruct (String.eqb (email x) e); simpl; congruence.
Qed.

Lemma updated_frame (u : User) (url : string) (phone : option string) :
  id (updated u url phone) = id u /\
  email (updated u url phone) = email u /\
  created_at (updated u url phone) = created_at u.
Proof.
  unfold updated.
  destruct (Py.truthy (Some url) && negb (String.eqb url placeholder_url)),
           (Py.truthy phone); repeat split.
Qed.

Lemma updated_url (u : User) (url : string) (phone : option string) :
  nightscout_url (updated u url phone)
  = if Py.truthy (Some url) && negb (String.eqb url placeholder_url)
    then url else nightscout_url u.
Proof.
  unfold updated.
  destruct (Py.truthy (Some url) && negb (String.eqb url placeholder_url)),
           (Py.truthy phone); reflexivity.
Qed.

Lemma updated_phone (u : User) (url : string) (phone : option string) :
  phone_number (updated u url phone)
  = if Py.truthy phone then phone else phone_number u.
Proof.
  unfold updated.
  destruct (Py.truthy (Some url) && negb (String.eqb url placeholder_url)),
           (Py.truthy phone); reflexivity.
Qed.

End UserFacts.

(** C10.  For a user that already exists, [get_or_create_user] returns and
    stores a row with the same id, e-mail and creation time.  The stored
    URL changes only to a supplied URL that is neither empty nor the
    placeholder; the stored phone number changes only to a supplied
    non-empty number, so it is never cleared.  The other rows are left as
    they are, and a failing session leaves the whole database unchanged. *)
Theorem get_or_create_user_existing
  (db : DatabaseManager.database) (now : Z)
  (e url : string) (phone : option string) (u : DatabaseManager.User)
  (existing : DatabaseManager.first_by_email e (DatabaseManager.users db)
              = Some u) :
  exists u' db',
    DatabaseManager.get_or_create_user db None now e url phone
    = (inl u', db') /\
    DatabaseManager.first_by_email e (DatabaseManager.users db') = Some u' /\
    DatabaseManager.id u' = DatabaseManager.id u /\
    DatabaseManager.email u' = DatabaseManager.email u /\
    DatabaseManager.created_at u' = DatabaseManager.created_at u /\
    (url = DatabaseManager.placeholder_url \/ url = ""%string ->
     DatabaseManager.nightscout_url u' = DatabaseManager.nightscout_url u) /\
    (DatabaseManager.nightscout_url u' <> DatabaseManager.nightscout_url u ->
     DatabaseManager.nightscout_url u' = url /\
     url <> DatabaseManager.placeholder_url /\ url <> ""%string) /\
    (Py.truthy phone = false ->
     DatabaseManager.phone_number u' = DatabaseManager.phone_number u) /\
    (Py.truthy phone = true -> DatabaseManager.phone_number u' = phone) /\
    (Py.truthy (DatabaseManager.phone_number u) = true ->
     Py.truthy (DatabaseManager.phone_number u') = true) /\
    (forall v, In v (DatabaseManager.users db) ->
               DatabaseManager.email v <> e ->
               In v (DatabaseManager.users db')) /\
    List.length (DatabaseManager.users db')
      = List.length (DatabaseManager.users db) /\
    DatabaseManager.glucose_readings db' = DatabaseManager.glucose_readings db /\
    (forall fault,
       snd (DatabaseManager.get_or_create_user db (Some fault) now e url phone)
       = db).
Proof.
  destruct (first_by_email_found _ _ _ existing) as [Hin Hemail].
  destruct (updated_frame u url phone) as (Hid & Hem & Hcr).
  unfold DatabaseManager.get_or_create_user. rewrite existing.
  do 2 eexists. split; [reflexivity |].
  cbn [DatabaseManager.users DatabaseManager.glucose_readings].
  split.
  { apply write_back_found with u; [exact existing | congruence]. }
  split; [exact Hid |]. split; [exact Hem |]. split; [exact Hcr |].
  rewrite updated_url, updated_phone.
  split.
  { intros [-> | ->].
    - rewrite String.eqb_refl, andb_false_r. reflexivity.
    - reflexivity. }
  split.
  { destruct url as [| c rest]; [intros H; contradiction H; reflexivity |].
    cbn [Py.truthy andb].
    destruct (String.eqb_spec (String c rest) DatabaseManager.placeholder_url)
      as [Heq | Hne]; cbn [negb].
    - intros H. contradiction H. reflexivity.
    - intros _. repeat split; [exact Hne | discriminate]. }
  split; [intros ->; reflexivity |].
  split; [intros ->; reflexivity |].
  split.
  { intros Hstored. destruct (Py.truthy phone) eqn:Hp; assumption. }
  split; [intros v Hv Hne; apply write_back_others; assumption |].
  split; [apply write_back_length |].
  split; reflexivity.
Qed.

Lemma get_or_create_user_existing_witness :
  DatabaseManager.first_by_email "pat@example.org"
    (DatabaseManager.users DatabaseManager.sample_db)
  = Some (DatabaseManager.MkUser 1 "pat@example.org" (Some "+15550100"%string)
            "https://ns.example.org" 500) /\
  exists u' db',
    DatabaseManager.get_or_create_user DatabaseManager.sample_db None 900
      "pat@example.org" DatabaseManager.placeholder_url None
    = (inl u', db') /\
    DatabaseManager.nightscout_url u' = "https://ns.example.org"%string /\
    DatabaseManager.phone_number u' = Some "+15550100"%string.
Proof.
  split; [reflexivity |].
  destruct (get_or_create_user_existing DatabaseManager.sample_db 900
              "pat@example.org" DatabaseManager.placeholder_url None
              (DatabaseManager.MkUser 1 "pat@example.org" (Some "+15550100"%string)
                 "https://ns.example.org" 500))
    as (u' & db' & Hrun & _ & _ & _ & _ & Hurl & _ & Hphone & _);
    [reflexivity |].
  exists u', db'. split; [exact Hrun |].
  split; [apply Hurl; left; reflexivity | apply Hphone; reflexivity].
Defined.

(** ** Concrete runs *)

Example statistics_of_three :
  map fst (DataProcessor.calculate_statistics
             (DataProcessor.Frame [65; 110; 200] [3; 2; 1]%Z None None None))
  = ["current"; "average"; "std"; "max"; "min"; "in_range"]%string /\
  DataProcessor.mean [65; 110; 200] == 125 /\
  DataProcessor.sq_dev [65; 110; 200] / DataProcessor.count [110; 200] == 4725 /\
  DataProcessor.max_from 65 [110; 200] == 200 /\
  DataProcessor.min_from 65 [110; 200] == 65 /\
  DataProcessor.fraction (map DataProcessor.in_target [65; 110; 200]) * 100
    == 100 # 3.
Proof. repeat split. Qed.

Example rolling_of_twenty :
  let xs := map (fun n => inject_Z (Z.of_nat n)) (seq 100 20) in
  map (fun v => match v with DataProcessor.NaN => true | _ => false end)
      (DataProcessor.rolling 12
         (fun win => DataProcessor.Num (DataProcessor.mean win)) xs)
  = [true; true; true; true; true; true; true; true; true; true; true;
     false; false; false; false; false; false; false; false; false] /\
  DataProcessor.mean (firstn 12 xs) == 211 # 2.
Proof. split; reflexivity. Qed.

Example dispatch_with_sms_down :
  AlertManager.send_glucose_alert Samples.sms_down Samples.phone
    Samples.high_alert Samples.mailbox AlertManager.fresh
  = (true,
     AlertManager.Cls (Some (AlertManager.Client "AC01" "token"))
                      (Some "+15550001") (Some "secret"),
     [ AlertManager.Print "Twilio client initialized successfully";
       AlertManager.Print "Email credentials initialized successfully";
       AlertManager.MessagesCreate
         (AlertManager.Message AlertManager.HighWording 250 (Some 0%Z))
         "+15550001" "+15550100";
       AlertManager.Print "Failed to send SMS alert: unreachable";
       AlertManager.SmtpSend AlertManager.email_sender "pat@example.org"
         (AlertManager.Message AlertManager.HighWording 250 (Some 0%Z));
       AlertManager.Print "Email alert sent to pat@example.org" ])%string.
Proof. reflexivity. Qed.

(** Called on the fresh class with an e-mail recipient only, the
    dispatcher never loads the password from the environment: the e-mail
    channel counts as not configured until [can_send_alerts] (or the SMS
    half) has run [_initialize_client]. *)
Example dispatch_before_initialisation :
  AlertManager.send_glucose_alert Samples.sms_down None
    Samples.high_alert Samples.mailbox AlertManager.fresh
  = (false, AlertManager.fresh,
     [ AlertManager.Print
         "Email password not configured, cannot send email alerts." ])%string
  /\
  AlertManager.result
    (AlertManager.send_glucose_alert Samples.sms_down None
       Samples.high_alert Samples.mailbox (Samples.checked Samples.sms_down))
  = true.
Proof. split; reflexivity. Qed.

(** * Further properties of the code *)

(** ** Statistics and enrichment *)

Section MoreStatistics.

Import DataProcessor.

Lemma min_from_in (xs : list Q) (x : Q) : In (min_from x xs) (x :: xs).
Proof.
  revert x. induction xs as [| a xs IH]; intros x; [left; reflexivity |].
  change (min_from x (a :: xs)) with (min_from (Qmin x a) xs).
  destruct (IH (Qmin x a)) as [Hhead | Htail].
  - rewrite <- Hhead. unfold Qmin, GenericMinMax.gmin.
    destruct (x ?= a); simpl; auto.
  - right. right. exact Htail.
Qed.

Lemma max_from_in (xs : list Q) (x : Q) : In (max_from x xs) (x :: xs).
Proof.
  revert x. induction xs as [| a xs IH]; intros x; [left; reflexivity |].
  change (max_from x (a :: xs)) with (max_from (Qmax x a) xs).
  destruct (IH (Qmax x a)) as [Hhead | Htail].
  - rewrite <- Hhead. unfold Qmax, GenericMinMax.gmax.
    destruct (x ?= a); simpl; auto.
  - right. right. exact Htail.
Qed.

Lemma square_nonneg (y : Q) : 0 <= y * y.
Proof.
  destruct (Qlt_le_dec y 0) as [Hneg | Hpos].
  - setoid_replace (y * y) with ((- y) * (- y)) by ring.
    apply Qmult_le_0_compat; lra.
  - apply Qmult_le_0_compat; assumption.
Qed.

Lemma squares_nonneg (m : Q) (xs : list Q) :
  0 <= fold_right (fun x acc => (x - m) * (x - m) + acc) 0 xs.
Proof.
  induction xs as [| x xs IH]; simpl; [apply Qle_refl |].
  pose proof (square_nonneg (x - m)). lra.
Qed.


Lemma all_true_count (bs : list bool) :
  List.length (filter (fun b => b) bs) = List.length bs <->
  Forall (fun b => b = true) bs.
Proof.
  induction bs as [| b bs IH]; simpl; [split; constructor |].
  pose proof (true_count_le bs) as Hle.
  destruct b; simpl.
  - split.
    + intros H. constructor; [reflexivity | apply IH; lia].
    + intros H. inversion H; subst. f_equal. apply IH. assumption.
  - split; [lia | intros H; inversion H; discriminate].
Qed.

Lemma none_true_count (bs : list bool) :
  List.length (filter (fun b => b) bs) = 0%nat <->
  Forall (fun b => b = false) bs.
Proof.
  induction bs as [| b bs IH]; simpl; [split; constructor |].
  destruct b; simpl.
  - split; [discriminate | intros H; inversion H; discriminate].
  - rewrite IH. split; [intros H; constructor; auto |].
    intros H; inversion H; assumption.
Qed.

Lemma percent_extremes (K N : Q) :
  0 < N ->
  (K / N * 100 == 100 <-> K == N) /\ (K / N * 100 == 0 <-> K == 0).
Proof.
  intros HN.
  assert (HN' : ~ N == 0) by (intros E; rewrite E in HN; exact (Qlt_irrefl _ HN)).
  assert (Hq : K / N * N == K) by (field; exact HN').
  split; split; intros H.
  - assert (E : K / N == 1) by lra. rewrite E in Hq. lra.
  - rewrite H. field. exact HN'.
  - assert (E : K / N == 0) by lra. rewrite E in Hq. lra.
  - rewrite H. field. exact HN'.
Qed.

Lemma fraction_times_100 (b : bool) (bs : list bool) :
  (fraction (b :: bs) * 100 == 100 <-> Forall (fun c => c = true) (b :: bs)) /\
  (fraction (b :: bs) * 100 == 0 <-> Forall (fun c => c = false) (b :: bs)).
Proof.
  rewrite <- all_true_count, <- none_true_count.
  unfold fraction.
  set (k := List.length (filter (fun c => c) (b :: bs))).
  set (n := List.length (b :: bs)).
  assert (Hn : 0 < inject_Z (Z.of_nat n)).
  { change 0 with (inject_Z 0). rewrite <- Zlt_Qlt. unfold n. simpl. lia. }
  destruct (percent_extremes (inject_Z (Z.of_nat k)) _ Hn) as [Hall Hnone].
  rewrite Hall, Hnone. change 0 with (inject_Z 0).
  rewrite !inject_Z_injective. lia.
Qed.

End MoreStatistics.


(** X1.  On a non-empty series the [min] and [max] entries of the
    statistics are samples of the series, and the [current] entry (the
    first sample) lies between them. *)
Theorem statistics_extremes_attained (df : DataProcessor.frame)
  (nonempty : DataProcessor.sgv df <> []) :
  exists mn mx cur,
    let d := DataProcessor.calculate_statistics df in
    DataProcessor.lookup "min" d = Some (DataProcessor.Num mn) /\
    DataProcessor.lookup "max" d = Some (DataProcessor.Num mx) /\
    DataProcessor.lookup "current" d = Some (DataProcessor.Num cur) /\
    In mn (DataProcessor.sgv df) /\
    In mx (DataProcessor.sgv df) /\
    hd_error (DataProcessor.sgv df) = Some cur /\
    mn <= cur /\ cur <= mx.
Proof.
  unfold DataProcessor.calculate_statistics.
  destruct (DataProcessor.sgv df) as [| x xs]; [congruence |].
  exists (DataProcessor.min_from x xs), (DataProcessor.max_from x xs), x.
  cbv zeta. do 3 (split; [reflexivity |]).
  split; [apply min_from_in |]. split; [apply max_from_in |].
  split; [reflexivity |].
  split; [apply min_from_le_start | apply max_from_ge_start].
Qed.

Lemma statistics_extremes_attained_witness :
  DataProcessor.sgv
    (DataProcessor.Frame [110; 65; 200] [3; 2; 1]%Z None None None) <> [] /\
  exists mn mx,
    In mn [110; 65; 200] /\ In mx [110; 65; 200] /\ mn <= 110 /\ 110 <= mx.
Proof.
  split; [discriminate |].
  destruct (statistics_extremes_attained
              (DataProcessor.Frame [110; 65; 200] [3; 2; 1]%Z None None None))
    as (mn & mx & cur & _ & _ & _ & Hmn & Hmx & Hcur & Hlo & Hhi);
    [discriminate |].
  injection Hcur as <-.
  exists mn, mx. repeat split; assumption.
Defined.

(** X2.  The [std] entry of the statistics is [NaN] when the series has a
    single sample; with two or more samples it is the square root of a
    non-negative number, the sum of squared deviations from the mean
    divided by the number of samples minus one. *)
Theorem statistics_std_edge (df : DataProcessor.frame) :
  (List.length (DataProcessor.sgv df) = 1%nat ->
   DataProcessor.lookup "std" (DataProcessor.calculate_statistics df)
   = Some DataProcessor.NaN) /\
  ((2 <= List.length (DataProcessor.sgv df))%nat ->
   exists radicand,
     DataProcessor.lookup "std" (DataProcessor.calculate_statistics df)
     = Some (DataProcessor.SqrtOf radicand) /\
     0 <= radicand /\
     radicand
     == DataProcessor.sq_dev (DataProcessor.sgv df)
        / (inject_Z (Z.of_nat (List.length (DataProcessor.sgv df))) - 1)).
Proof.
  unfold DataProcessor.calculate_statistics.
  destruct (DataProcessor.sgv df) as [| x [| y rest]]; simpl List.length.
  - split; [discriminate | lia].
  - split; [reflexivity | lia].
  - split; [discriminate |]. intros _.
    eexists. split; [reflexivity |].
    pose proof (count_pos y rest) as Hpos.
    split.
    + apply Qle_shift_div_l; [exact Hpos |].
      rewrite Qmult_0_l. apply squares_nonneg.
    + apply Qdiv_comp; [reflexivity |].
      unfold DataProcessor.count. simpl List.length.
      rewrite (Nat2Z.inj_succ (S (List.length rest))), <- Z.add_1_r,
        inject_Z_plus.
      change (inject_Z 1) with 1. ring.
Qed.

Lemma statistics_std_edge_witness :
  DataProcessor.lookup "std"
    (DataProcessor.calculate_statistics
       (DataProcessor.Frame [120] [1]%Z None None None))
  = Some DataProcessor.NaN.
Proof.
  apply (statistics_std_edge (DataProcessor.Frame [120] [1]%Z None None None)).
  reflexivity.
Defined.

(** X3.  On a non-empty series the [in_range] entry is 100 exactly when
    every sample lies in [70, 180], and 0 exactly when none does. *)
Theorem in_range_extremes (df : DataProcessor.frame)
  (nonempty : DataProcessor.sgv df <> []) :
  exists pct,
    DataProcessor.lookup "in_range" (DataProcessor.calculate_statistics df)
    = Some (DataProcessor.Num pct) /\
    (pct == 100 <->
     Forall (fun v => 70 <= v /\ v <= 180) (DataProcessor.sgv df)) /\
    (pct == 0 <->
     Forall (fun v => ~ (70 <= v /\ v <= 180)) (DataProcessor.sgv df)).
Proof.
  unfold DataProcessor.calculate_statistics.
  destruct (DataProcessor.sgv df) as [| x xs]; [congruence |].
  eexists. split; [reflexivity |].
  destruct (fraction_times_100 (DataProcessor.in_target x)
              (map DataProcessor.in_target xs)) as [Hall Hnone].
  change (DataProcessor.in_target x :: map DataProcessor.in_target xs)
    with (map DataProcessor.in_target (x :: xs)) in Hall, Hnone.
  rewrite Hall, Hnone, !Forall_map. split.
  - split; apply Forall_impl; intros v; apply in_target_spec.
  - split; apply Forall_impl; intros v; rewrite <- in_target_spec;
      destruct (DataProcessor.in_target v); congruence.
Qed.

Lemma in_range_extremes_witness :
  DataProcessor.sgv
    (DataProcessor.Frame [110; 95] [2; 1]%Z None None None) <> [] /\
  exists pct,
    DataProcessor.lookup "in_range"
      (DataProcessor.calculate_statistics
         (DataProcessor.Frame [110; 95] [2; 1]%Z None None None))
    = Some (DataProcessor.Num pct) /\
    pct == 100.
Proof.
  split; [discriminate |].
  destruct (in_range_extremes
              (DataProcessor.Frame [110; 95] [2; 1]%Z None None None))
    as (pct & Hpct & Hall & _); [discriminate |].
  exists pct. split; [exact Hpct |].
  apply Hall. repeat constructor; discriminate.
Defined.

(** X4.  [process_glucose_data] keeps the raw columns, returns an empty
    frame untouched (without adding a column), and processing a processed
    frame again changes nothing. *)
Theorem process_glucose_data_idempotent (df : DataProcessor.frame) :
  DataProcessor.process_glucose_data (DataProcessor.process_glucose_data df)
  = DataProcessor.process_glucose_data df /\
  DataProcessor.sgv (DataProcessor.process_glucose_data df)
  = DataProcessor.sgv df /\
  DataProcessor.date (DataProcessor.process_glucose_data df)
  = DataProcessor.date df /\
  (DataProcessor.empty df = true ->
   DataProcessor.process_glucose_data df = df) /\
  (DataProcessor.empty df = false ->
   DataProcessor.datetime (DataProcessor.process_glucose_data df) <> None /\
   DataProcessor.rolling_avg (DataProcessor.process_glucose_data df) <> None /\
   DataProcessor.rolling_std (DataProcessor.process_glucose_data df) <> None).
Proof.
  unfold DataProcessor.process_glucose_data.
  destruct (DataProcessor.empty df) eqn:E.
  - rewrite E. repeat split; discriminate.
  - unfold DataProcessor.empty at 1.
    cbn [DataProcessor.sgv DataProcessor.date DataProcessor.datetime
         DataProcessor.rolling_avg DataProcessor.rolling_std].
    unfold DataProcessor.empty in E.
    destruct (DataProcessor.sgv df); [discriminate |].
    repeat split; discriminate.
Qed.

Lemma process_glucose_data_idempotent_witness :
  DataProcessor.process_glucose_data
    (DataProcessor.Frame [] [] None None None)
  = DataProcessor.Frame [] [] None None None.
Proof.
  apply (process_glucose_data_idempotent
           (DataProcessor.Frame [] [] None None None)).
  reflexivity.
Defined.



(** X7.  [get_trend_arrow] answers '-' exactly for 'NONE' and for a
    direction that is not a key of its table; each of the seven direction
    codes, and so each direction the sample generator draws, gets an arrow
    of its own. *)
Theorem trend_arrow_default (direction : string) :
  (DataProcessor.get_trend_arrow direction = "-"%string <->
   direction = "NONE"%string \/
   ~ In direction (map fst DataProcessor.arrows)) /\
  (forall other,
     In direction (map fst DataProcessor.arrows) ->
     In other (map fst DataProcessor.arrows) ->
     DataProcessor.get_trend_arrow direction
     = DataProcessor.get_trend_arrow other ->
     direction = other) /\
  Forall (fun d => DataProcessor.get_trend_arrow d <> "-"%string)
         ["Flat"; "FortyFiveUp"; "FortyFiveDown"]%string.
Proof.
  split; [| split].
  - unfold DataProcessor.get_trend_arrow, DataProcessor.arrows.
    cbn [DataProcessor.dict_get map fst In].
    repeat match goal with
           | |- context [String.eqb ?k direction] =>
               destruct (String.eqb_spec k direction) as [<- | ?]
           end;
      (split; [intros H; try discriminate H; auto; right; intuition congruence
              | intros [H | H]; try discriminate H; try reflexivity;
                exfalso; apply H; auto 10]).
  - intros other Hd Ho. cbn in Hd, Ho.
    repeat (destruct Hd as [<- | Hd]; [| ]); try contradiction;
      repeat (destruct Ho as [<- | Ho]; [| ]); try contradiction;
      intros H; try reflexivity; discriminate H.
  - repeat constructor; discriminate.
Qed.

(** ** The request cycle *)

(** X8.  When no current reading is available the advice panel is chosen
    from the value 0: with ordered thresholds and a positive low threshold
    the LOW advice is shown, although no alert is sent. *)
Theorem advice_without_reading (s : Threshold.session)
  (no_reading : Threshold.current_sgv s = None)
  (positive : 0 < Threshold.low (Threshold.limits s))
  (ordered : Threshold.low (Threshold.limits s)
             < Threshold.high (Threshold.limits s)) :
  Threshold.advice_shown s = Threshold.Low /\
  Threshold.alert_fired s = None.
Proof.
  split.
  - unfold Threshold.advice_shown, Threshold.advice_value.
    rewrite no_reading. apply alert_branch_low; assumption.
  - unfold Threshold.alert_fired. rewrite no_reading.
    destruct (_ && _); reflexivity.
Qed.

Lemma advice_without_reading_witness :
  Threshold.advice_shown
    (Threshold.Session true (Some "+15550100"%string) None None true
       (Threshold.Thresholds 70 180))
  = Threshold.Low.
Proof.
  apply (advice_without_reading
           (Threshold.Session true (Some "+15550100"%string) None None true
              (Threshold.Thresholds 70 180))); reflexivity.
Defined.

(** X9.  An alert is sent exactly when alerts are enabled, a phone number
    or an e-mail address is known, a current reading exists, the alert
    manager can send, and the reading is above the high threshold (a
    "high" alert) or, failing that, below the low threshold (a "low"
    alert).  Whenever an alert is sent the advice panel of the same kind
    is shown. *)
Theorem alert_gate (s : Threshold.session) (kind : string) :
  (Threshold.alert_fired s = Some kind <->
   Threshold.enable_alerts s = true /\
   (Py.truthy (Threshold.phone_number s) = true \/
    Py.truthy (Threshold.user_email s) = true) /\
   Threshold.can_send_alerts s = true /\
   exists v,
     Threshold.current_sgv s = Some v /\
     ((kind = "high"%string /\ Threshold.high (Threshold.limits s) < v) \/
      (kind = "low"%string /\ v <= Threshold.high (Threshold.limits s) /\
       v < Threshold.low (Threshold.limits s)))) /\
  (Threshold.alert_fired s = Some "high"%string ->
   Threshold.advice_shown s = Threshold.High) /\
  (Threshold.alert_fired s = Some "low"%string ->
   Threshold.advice_shown s = Threshold.Low).
Proof.
  assert (shown : forall k, Threshold.alert_fired s = Some k ->
            (k = "high"%string /\ Threshold.advice_shown s = Threshold.High) \/
            (k = "low"%string /\ Threshold.advice_shown s = Threshold.Low)).
  { intros k Hk. destruct (alert_fired_inv s k Hk) as (v & Hv & Hb).
    unfold Threshold.advice_shown, Threshold.advice_value. rewrite Hv.
    tauto. }
  split; [| split].
  - unfold Threshold.alert_fired, Threshold.alert_branch.
    destruct (Threshold.enable_alerts s);
      [| cbn; split; [discriminate | intros (H & _); discriminate]].
    rewrite andb_true_l, <- orb_true_iff.
    destruct (_ || _);
      [| split; [discriminate | intros (_ & H & _); discriminate]].
    destruct (Threshold.current_sgv s) as [v |];
      [| split; [discriminate
                | intros (_ & _ & _ & v & H & _); discriminate]].
    destruct (Threshold.can_send_alerts s);
      [| split; [discriminate | intros (_ & _ & H & _); discriminate]].
    destruct (Py.ltb (Threshold.high (Threshold.limits s)) v) eqn:Hh.
    + apply ltb_spec in Hh. split.
      * intros H. injection H as <-. repeat split.
        exists v. split; [reflexivity | left; split; [reflexivity | exact Hh]].
      * intros (_ & _ & _ & v' & Hv' & [[-> _] | [_ [Hle _]]]).
        -- reflexivity.
        -- injection Hv' as <-. exfalso. exact (Qlt_not_le _ _ Hh Hle).
    + apply ltb_false in Hh.
      destruct (Py.ltb v (Threshold.low (Threshold.limits s))) eqn:Hl.
      * apply ltb_spec in Hl. split.
        -- intros H. injection H as <-. repeat split.
           exists v. split; [reflexivity | right; repeat split; assumption].
        -- intros (_ & _ & _ & v' & Hv' & [[_ Hlt] | [-> _]]).
           ++ injection Hv' as <-. exfalso. exact (Qlt_not_le _ _ Hlt Hh).
           ++ reflexivity.
      * apply ltb_false in Hl. split; [discriminate |].
        intros (_ & _ & _ & v' & Hv' & [[_ Hlt] | [_ [_ Hlt]]]);
          injection Hv' as <-; exfalso.
        -- exact (Qlt_not_le _ _ Hlt Hh).
        -- exact (Qlt_not_le _ _ Hlt Hl).
  - intros H. destruct (shown _ H) as [[_ E] | [E _]];
      [exact E | discriminate E].
  - intros H. destruct (shown _ H) as [[E _] | [_ E]];
      [discriminate E | exact E].
Qed.

Lemma alert_gate_witness :
  Threshold.advice_shown
    (Threshold.Session true (Some "+15550100"%string) None (Some 250) true
       (Threshold.Thresholds 70 180))
  = Threshold.High.
Proof.
  apply (alert_gate
           (Threshold.Session true (Some "+15550100"%string) None (Some 250)
              true (Threshold.Thresholds 70 180)) "high").
  reflexivity.
Defined.

Lemma clean_phone_head (phone : string) :
  match App.clean_phone phone with
  | String c _ => App.isdigit c || Ascii.eqb c "+" = true
  | EmptyString => True
  end.
Proof.
  induction phone as [| c rest IH]; simpl; [exact I |].
  destruct (App.isdigit c || Ascii.eqb c "+") eqn:E; [exact E | exact IH].
Qed.

Lemma clean_phone_idempotent (phone : string) :
  App.clean_phone (App.clean_phone phone) = App.clean_phone phone.
Proof.
  induction phone as [| c rest IH]; simpl; [reflexivity |].
  destruct (App.isdigit c || Ascii.eqb c "+") eqn:E; [| exact IH].
  simpl. rewrite E, IH. reflexivity.
Qed.

Lemma clean_phone_shorter (phone : string) :
  (String.length (App.clean_phone phone) <= String.length phone)%nat.
Proof.
  induction phone as [| c rest IH]; simpl; [lia |].
  destruct (App.isdigit c || Ascii.eqb c "+"); simpl; lia.
Qed.

(** X10.  [validate_phone] accepts a phone number made of ASCII characters
    exactly when at least ten of its characters are digits or '+': the
    test on the first kept character never rejects, and the characters
    that are dropped play no part.  An accepted number has at least ten
    characters. *)
Theorem validate_phone_counts (phone : string)
  (plain : App.ascii_only phone = true) :
  (App.validate_phone phone = true <->
   (10 <= String.length (App.clean_phone phone))%nat) /\
  App.validate_phone (App.clean_phone phone) = App.validate_phone phone /\
  (App.validate_phone phone = true -> (10 <= String.length phone)%nat).
Proof.
  assert (counts : forall p, App.validate_phone p = true <->
                     (10 <= String.length (App.clean_phone p))%nat).
  { intros p. unfold App.validate_phone.
    pose proof (clean_phone_head p) as Hhead.
    destruct (Nat.leb_spec 10 (String.length (App.clean_phone p)))
      as [Hlen | Hlen].
    - destruct (App.clean_phone p) as [| c rest]; [simpl in Hlen; lia |].
      rewrite Hhead. tauto.
    - split; [discriminate | lia]. }
  split; [apply counts |]. split.
  - unfold App.validate_phone. rewrite clean_phone_idempotent. reflexivity.
  - intros H. apply counts in H.
    pose proof (clean_phone_shorter phone). lia.
Qed.

Lemma validate_phone_counts_witness :
  App.ascii_only "+1 (555) 010-0199" = true /\
  App.validate_phone "+1 (555) 010-0199" = true /\
  (10 <= String.length "+1 (555) 010-0199")%nat.
Proof.
  split; [reflexivity |]. split; [reflexivity |].
  apply (validate_phone_counts "+1 (555) 010-0199" eq_refl). reflexivity.
Defined.



(** ** Persistence gateway, further *)

Section MoreUserFacts.

Import DatabaseManager.

Lemma first_by_email_appended (e : string) (us : list User) (u : User) :
  first_by_email e us = None ->
  email u = e ->
  first_by_email e (us ++ [u]) = Some u.
Proof.
  intros Hnone He. unfold first_by_email in *.
  induction us as [| v rest IH]; simpl in *.
  - rewrite He, String.eqb_refl. reflexivity.
  - destruct (String.eqb (email v) e); [discriminate | auto].
Qed.

Lemma write_back_same (e : string) (us : list User) (u : User) :
  first_by_email e us = Some u -> write_back e u us = us.
Proof.
  unfold first_by_email. induction us as [| v rest IH]; simpl; [reflexivity |].
  destruct (String.eqb (email v) e).
  - intros H. injection H as ->. reflexivity.
  - intros H. f_equal. auto.
Qed.

Lemma updated_same (u : User) (url : string) (phone : option string) :
  (Py.truthy (Some url) && negb (String.eqb url placeholder_url) = true ->
   nightscout_url u = url) ->
  (Py.truthy phone = true -> phone_number u = phone) ->
  updated u url phone = u.
Proof.
  intros Hurl Hphone. destruct u as [i em ph ns cr]. unfold updated.
  destruct (Py.truthy (Some url) && negb (String.eqb url placeholder_url));
    destruct (Py.truthy phone); cbn in *;
    try rewrite <- (Hurl eq_refl); try rewrite <- (Hphone eq_refl);
    reflexivity.
Qed.

Lemma updated_again (u : User) (url : string) (phone : option string) :
  updated (updated u url phone) url phone = updated u url phone.
Proof.
  apply updated_same.
  - intros H. rewrite updated_url, H. reflexivity.
  - intros H. rewrite updated_phone, H. reflexivity.
Qed.

End MoreUserFacts.

(** X13.  For an e-mail address no stored user has, [get_or_create_user]
    appends one row: it gets the next id, the given address, the creation
    time and the URL exactly as given (the placeholder included), and the
    phone number only when a non-empty one is given.  The earlier rows and
    the readings are unchanged, and the new row is the one a later look-up
    of the address finds. *)
Theorem get_or_create_user_new
  (db : DatabaseManager.database) (now : Z)
  (e url : string) (phone : option string)
  (absent : DatabaseManager.first_by_email e (DatabaseManager.users db)
            = None) :
  exists u' db',
    DatabaseManager.get_or_create_user db None now e url phone
    = (inl u', db') /\
    DatabaseManager.users db' = (DatabaseManager.users db ++ [u'])%list /\
    DatabaseManager.glucose_readings db' = DatabaseManager.glucose_readings db /\
    DatabaseManager.next_user_id db' = (DatabaseManager.next_user_id db + 1)%Z /\
    DatabaseManager.id u' = DatabaseManager.next_user_id db /\
    DatabaseManager.email u' = e /\
    DatabaseManager.nightscout_url u' = url /\
    DatabaseManager.created_at u' = now /\
    DatabaseManager.phone_number u'
    = (if Py.truthy phone then phone else None) /\
    DatabaseManager.first_by_email e (DatabaseManager.users db') = Some u'.
Proof.
  unfold DatabaseManager.get_or_create_user. rewrite absent.
  do 2 eexists. split; [reflexivity |].
  cbn [DatabaseManager.users DatabaseManager.glucose_readings
       DatabaseManager.next_user_id DatabaseManager.id DatabaseManager.email
       DatabaseManager.nightscout_url DatabaseManager.created_at
       DatabaseManager.phone_number].
  repeat (split; [reflexivity |]).
  apply first_by_email_appended; [exact absent | reflexivity].
Qed.

Lemma get_or_create_user_new_witness :
  exists u' db',
    DatabaseManager.get_or_create_user DatabaseManager.sample_db None 900
      "kim@example.org" DatabaseManager.placeholder_url (Some ""%string)
    = (inl u', db') /\
    DatabaseManager.id u' = 3%Z /\
    DatabaseManager.nightscout_url u' = DatabaseManager.placeholder_url /\
    DatabaseManager.phone_number u' = None.
Proof.
  destruct (get_or_create_user_new DatabaseManager.sample_db 900
              "kim@example.org" DatabaseManager.placeholder_url
              (Some ""%string) eq_refl)
    as (u' & db' & Hrun & _ & _ & _ & Hid & _ & Hurl & _ & Hphone & _).
  exists u', db'. repeat split; assumption.
Defined.

(** X14.  [get_or_create_user] is idempotent: a second call with the same
    address, URL and phone number returns the same user and leaves the
    database as the first call left it, whether the first call created the
    user or updated it. *)
Theorem get_or_create_user_twice
  (db : DatabaseManager.database) (now later : Z)
  (e url : string) (phone : option string) :
  exists u1 db1,
    DatabaseManager.get_or_create_user db None now e url phone
    = (inl u1, db1) /\
    DatabaseManager.get_or_create_user db1 None later e url phone
    = (inl u1, db1).
Proof.
  assert (again : forall u1 db1,
            DatabaseManager.first_by_email e (DatabaseManager.users db1)
            = Some u1 ->
            DatabaseManager.updated u1 url phone = u1 ->
            DatabaseManager.get_or_create_user db1 None later e url phone
            = (inl u1, db1)).
  { intros u1 db1 Hfound Hsame.
    unfold DatabaseManager.get_or_create_user.
    rewrite Hfound, Hsame, (write_back_same _ _ _ Hfound).
    destruct db1; reflexivity. }
  destruct (DatabaseManager.first_by_email e (DatabaseManager.users db))
    as [u |] eqn:Hfound.
  - destruct (first_by_email_found _ _ _ Hfound) as [_ Hemail].
    destruct (updated_frame u url phone) as (_ & Hem & _).
    do 2 eexists. split.
    + unfold DatabaseManager.get_or_create_user. rewrite Hfound. reflexivity.
    + apply again; [| apply updated_again].
      cbn [DatabaseManager.users].
      apply write_back_found with u; [exact Hfound | congruence].
  - do 2 eexists. split.
    + unfold DatabaseManager.get_or_create_user. rewrite Hfound. reflexivity.
    + apply again.
      * cbn [DatabaseManager.users].
        apply first_by_email_appended; [exact Hfound | reflexivity].
      * apply updated_same;
          cbn [DatabaseManager.nightscout_url DatabaseManager.phone_number].
        -- reflexivity.
        -- intros ->. reflexivity.
Qed.

Section MoreReadingFacts.

Import DatabaseManager.
Local Open Scope Z_scope.

Lemma listing_length (uid since : Z) (rs : list GlucoseReading) :
  List.length (order_by_timestamp_desc (filter (selected uid since) rs))
  = List.length (filter (selected uid since) rs).
Proof.
  symmetry. apply Permutation_length, order_by_perm.
Qed.

Lemma listing_in (uid since : Z) (rs : list GlucoseReading)
  (r : GlucoseReading) :
  In r (order_by_timestamp_desc (filter (selected uid since) rs)) <->
  In r rs /\ user_id r = uid /\ since <= timestamp r.
Proof.
  rewrite <- selected_spec, <- filter_In. split.
  - apply Permutation_in, Permutation_sym, order_by_perm.
  - apply Permutation_in, order_by_perm.
Qed.

End MoreReadingFacts.

(** X15.  Round trip: a reading saved for a user with a timestamp inside
    the window is returned by [get_user_readings] for that user, with the
    value, timestamp, source and notes it was saved with. *)
Theorem saved_reading_is_listed
  (db : DatabaseManager.database) (new_id : Z) (user : DatabaseManager.User)
  (value : Q) (stamp : Z) (src : string) (note : option string)
  (now hours : Z)
  (in_window : (now - hours * 3600000000 <= stamp)%Z) :
  exists r db' rs,
    DatabaseManager.save_glucose_reading db None new_id user value stamp src
      note = (inl r, db') /\
    DatabaseManager.get_user_readings db' None now
      (DatabaseManager.id user) hours = inl rs /\
    In r rs /\
    DatabaseManager.glucose_value r = value /\
    DatabaseManager.timestamp r = stamp /\
    DatabaseManager.source r = src /\
    DatabaseManager.notes r = note /\
    DatabaseManager.users db' = DatabaseManager.users db.
Proof.
  do 3 eexists. split; [reflexivity |]. split; [reflexivity |].
  split; [| repeat split].
  apply listing_in. cbn. split; [| split; [reflexivity | exact in_window]].
  apply in_or_app. right. left. reflexivity.
Qed.

Lemma saved_reading_is_listed_witness :
  exists r rs,
    DatabaseManager.get_user_readings
      (snd (DatabaseManager.save_glucose_reading DatabaseManager.sample_db
              None 5
              (DatabaseManager.MkUser 2 "sam@example.org" None
                 DatabaseManager.placeholder_url 600)
              (355 # 2) (100 * 3600000000) "manual" None))
      None (100 * 3600000000) 2 24 = inl rs /\
    In r rs /\ DatabaseManager.glucose_value r = 355 # 2.
Proof.
  destruct (saved_reading_is_listed DatabaseManager.sample_db 5
              (DatabaseManager.MkUser 2 "sam@example.org" None
                 DatabaseManager.placeholder_url 600)
              (355 # 2) (100 * 3600000000) "manual" None
              (100 * 3600000000) 24)
    as (r & db' & rs & Hsave & Hlist & Hin & Hvalue & _); [cbn; lia |].
  exists r, rs. injection Hsave as _ <-.
  split; [exact Hlist |]. split; [exact Hin | exact Hvalue].
Defined.

(** X16.  [save_glucose_reading] never deduplicates: every save with a
    timestamp inside the window makes the user's listing one row longer,
    whatever is already stored, so a sample saved twice is listed twice. *)
Theorem save_never_deduplicates
  (db : DatabaseManager.database) (id1 id2 : Z) (user : DatabaseManager.User)
  (value : Q) (stamp : Z) (src : string) (note : option string)
  (now hours : Z)
  (in_window : (now - hours * 3600000000 <= stamp)%Z) :
  let listing d :=
    match DatabaseManager.get_user_readings d None now
            (DatabaseManager.id user) hours with
    | inl rs => rs
    | inr _ => []
    end in
  let db1 := snd (DatabaseManager.save_glucose_reading db None id1 user value
                    stamp src note) in
  let db2 := snd (DatabaseManager.save_glucose_reading db1 None id2 user value
                    stamp src note) in
  List.length (listing db1) = S (List.length (listing db)) /\
  List.length (listing db2) = S (S (List.length (listing db))) /\
  List.length (DatabaseManager.glucose_readings db2)
  = S (S (List.length (DatabaseManager.glucose_readings db))).
Proof.
  cbv zeta. unfold DatabaseManager.get_user_readings,
    DatabaseManager.save_glucose_reading, DatabaseManager.timedelta_hours.
  cbn [snd DatabaseManager.glucose_readings].
  rewrite !listing_length, !filter_app, !length_app.
  assert (kept : forall k,
            DatabaseManager.selected (DatabaseManager.id user)
              (now - hours * 3600000000)
              (DatabaseManager.MkReading k (DatabaseManager.id user) stamp
                 value src note) = true).
  { intros k. apply selected_spec. cbn. split; [reflexivity | exact in_window]. }
  cbn [filter]. rewrite !kept. cbn [List.length]. lia.
Qed.

Lemma save_never_deduplicates_witness :
  List.length
    (DatabaseManager.glucose_readings
       (snd (DatabaseManager.save_glucose_reading
               (snd (DatabaseManager.save_glucose_reading
                       DatabaseManager.sample_db None 5
                       (DatabaseManager.MkUser 2 "sam@example.org" None
                          DatabaseManager.placeholder_url 600)
                       140 (99 * 3600000000) "nightscout" None))
               None 6
               (DatabaseManager.MkUser 2 "sam@example.org" None
                  DatabaseManager.placeholder_url 600)
               140 (99 * 3600000000) "nightscout" None)))
  = 6%nat.
Proof.
  apply (save_never_deduplicates DatabaseManager.sample_db 5 6
           (DatabaseManager.MkUser 2 "sam@example.org" None
              DatabaseManager.placeholder_url 600)
           140 (99 * 3600000000) "nightscout" None (100 * 3600000000) 24).
  cbn. lia.
Defined.

(** X17.  A save touches one user's listing only: the listing of every
    other user is what it was, the users table is unchanged, and a save
    that fails changes nothing at all and raises a plain [Exception]
    whose message starts with "Failed to save glucose reading: ". *)
Theorem save_leaves_others
  (db : DatabaseManager.database) (new_id : Z) (user : DatabaseManager.User)
  (value : Q) (stamp : Z) (src : string) (note : option string)
  (now hours uid : Z)
  (other : uid <> DatabaseManager.id user) :
  DatabaseManager.get_user_readings
    (snd (DatabaseManager.save_glucose_reading db None new_id user value
            stamp src note)) None now uid hours
  = DatabaseManager.get_user_readings db None now uid hours /\
  DatabaseManager.users
    (snd (DatabaseManager.save_glucose_reading db None new_id user value
            stamp src note))
  = DatabaseManager.users db /\
  (forall fault,
     DatabaseManager.save_glucose_reading db (Some fault) new_id user value
       stamp src note
     = (inr (Py.Exn Py.BaseExc
               ("Failed to save glucose reading: " ++ Py.exn_msg fault)%string),
        db)).
Proof.
  split; [| split; reflexivity].
  unfold DatabaseManager.get_user_readings,
    DatabaseManager.save_glucose_reading.
  cbn [snd DatabaseManager.glucose_readings].
  rewrite filter_app. cbn [filter].
  replace (DatabaseManager.selected uid _ _) with false.
  - rewrite app_nil_r. reflexivity.
  - symmetry. unfold DatabaseManager.selected. cbn.
    apply andb_false_iff. left. apply Z.eqb_neq. congruence.
Qed.

Lemma save_leaves_others_witness :
  DatabaseManager.get_user_readings
    (snd (DatabaseManager.save_glucose_reading DatabaseManager.sample_db
            None 5
            (DatabaseManager.MkUser 2 "sam@example.org" None
               DatabaseManager.placeholder_url 600)
            140 (100 * 3600000000) "manual" None))
    None (100 * 3600000000) 1 6
  = DatabaseManager.get_user_readings DatabaseManager.sample_db None
      (100 * 3600000000) 1 6.
Proof.
  apply (save_leaves_others DatabaseManager.sample_db 5
           (DatabaseManager.MkUser 2 "sam@example.org" None
              DatabaseManager.placeholder_url 600)
           140 (100 * 3600000000) "manual" None (100 * 3600000000) 6 1).
  discriminate.
Defined.

(** X18.  Widening the window never loses a reading: every reading
    [get_user_readings] returns for a number of hours is returned for any
    larger number of hours, and the listing never holds more rows than
    the table. *)
Theorem listing_grows_with_window
  (db : DatabaseManager.database) (now uid hours wider : Z)
  (widened : (hours <= wider)%Z) :
  exists rs rs',
    DatabaseManager.get_user_readings db None now uid hours = inl rs /\
    DatabaseManager.get_user_readings db None now uid wider = inl rs' /\
    (forall r, In r rs -> In r rs') /\
    (List.length rs <= List.length rs')%nat /\
    (List.length rs'
     <= List.length (DatabaseManager.glucose_readings db))%nat.
Proof.
  do 2 eexists. split; [reflexivity |]. split; [reflexivity |].
  unfold DatabaseManager.timedelta_hours.
  split; [| split].
  - intros r. rewrite !listing_in. intros (Hin & Hu & Hs).
    repeat split; try assumption. lia.
  - rewrite !listing_length.
    induction (DatabaseManager.glucose_readings db) as [| r rest IH];
      [apply Nat.le_refl |].
    cbn [filter].
    destruct (DatabaseManager.selected uid (now - hours * 3600000000) r)
      eqn:Hsel.
    + apply selected_spec in Hsel.
      replace (DatabaseManager.selected uid (now - wider * 3600000000) r)
        with true.
      * cbn [List.length]. lia.
      * symmetry. apply selected_spec. split; [tauto | lia].
    + destruct (DatabaseManager.selected uid (now - wider * 3600000000) r);
        cbn [List.length]; lia.
  - rewrite listing_length. apply filter_length_le.
Qed.

Lemma listing_grows_with_window_witness :
  exists rs rs',
    DatabaseManager.get_user_readings DatabaseManager.sample_db None
      (100 * 3600000000) 1 6 = inl rs /\
    DatabaseManager.get_user_readings DatabaseManager.sample_db None
      (100 * 3600000000) 1 12 = inl rs' /\
    (List.length rs <= List.length rs')%nat.
Proof.
  destruct (listing_grows_with_window DatabaseManager.sample_db
              (100 * 3600000000) 1 6 12)
    as (rs & rs' & H1 & H2 & _ & Hlen & _); [lia |].
  exists rs, rs'. repeat split; assumption.
Defined.

Lemma filter_of_map {A B : Type} (p : B -> bool) (f : A -> B) (l : list A) :
  List.length (filter p (map f l))
  = List.length (filter (fun x => p (f x)) l).
Proof.
  induction l as [| a l IH]; simpl; [reflexivity |].
  destruct (p (f a)); simpl; congruence.
Qed.

(** X12.  The loop that stores the fetched history skips a reading whose
    save fails and goes on with the next one: the readings table grows by
    exactly the number of saves that did not fail, every added row belongs
    to the user with source "nightscout" and no notes, the users table is
    untouched, and when no save fails the added rows carry, in order, the
    fetched values and the local time [datetime.fromtimestamp] gives each
    fetched stamp. *)
Theorem store_history_skips_failures
  (rows : list NightscoutAPI.entry) (db : DatabaseManager.database)
  (user : DatabaseManager.User) (fromtimestamp : Z -> Z)
  (faults : nat -> option Py.exn) (keys : nat -> Z) :
  let db' := App.store_history db user fromtimestamp rows faults keys in
  DatabaseManager.users db' = DatabaseManager.users db /\
  exists added,
    DatabaseManager.glucose_readings db'
    = (DatabaseManager.glucose_readings db ++ added)%list /\
    List.length added
    = List.length
        (filter (fun i => match faults i with None => true | Some _ => false end)
                (seq 0 (List.length rows))) /\
    Forall (fun r => DatabaseManager.user_id r = DatabaseManager.id user /\
                     DatabaseManager.source r = "nightscout"%string /\
                     DatabaseManager.notes r = None) added /\
    ((forall i, (i < List.length rows)%nat -> faults i = None) ->
     map DatabaseManager.glucose_value added
     = map NightscoutAPI.entry_sgv rows /\
     map DatabaseManager.timestamp added
     = map (fun row => fromtimestamp (NightscoutAPI.entry_date row)) rows).
Proof.
  revert db faults keys.
  induction rows as [| row rest IH]; intros db faults keys; cbv zeta.
  - split; [reflexivity |]. exists []. rewrite app_nil_r.
    repeat split; constructor.
  - cbn [App.store_history List.length].
    rewrite <- cons_seq, <- seq_shift. cbn [filter].
    unfold DatabaseManager.save_glucose_reading.
    destruct (faults 0%nat) as [ex |] eqn:F0;
      cbn [List.length]; rewrite filter_of_map.
    + destruct (IH db (fun i => faults (S i)) (fun i => keys (S i)))
        as (Husers & added & Hreadings & Hlen & Hall & Hclean).
      split; [exact Husers |].
      exists added. split; [exact Hreadings |]. split; [exact Hlen |].
      split; [exact Hall |].
      intros Hnone. specialize (Hnone 0%nat (Nat.lt_0_succ _)). congruence.
    + match goal with
      | |- context [App.store_history ?d _ _ _ _ _] =>
          destruct (IH d (fun i => faults (S i)) (fun i => keys (S i)))
            as (Husers & added & Hreadings & Hlen & Hall & Hclean)
      end.
      cbn [DatabaseManager.users DatabaseManager.glucose_readings]
        in Husers, Hreadings.
      split; [exact Husers |].
      eexists (_ :: added).
      split; [rewrite Hreadings, <- app_assoc; reflexivity |].
      split; [cbn [List.length]; rewrite Hlen; reflexivity |].
      split; [constructor; [repeat split | exact Hall] |].
      intros Hnone.
      destruct Hclean as [Hv Ht];
        [intros i Hi; apply (Hnone (S i)); lia |].
      cbn [map]. rewrite Hv, Ht. split; reflexivity.
Qed.

Lemma store_history_skips_failures_witness :
  List.length
    (DatabaseManager.glucose_readings
       (App.store_history DatabaseManager.sample_db
          (DatabaseManager.MkUser 2 "sam@example.org" None
             DatabaseManager.placeholder_url 600)
          (fun date => (date * 1000)%Z)
          [NightscoutAPI.Entry 120 1000 "Flat";
           NightscoutAPI.Entry 125 2000 "Flat";
           NightscoutAPI.Entry 130 3000 "FortyFiveUp"]
          (fun i => match i with
                    | 1%nat => Some (Py.Exn (Py.OtherExc "IntegrityError") "busy")
                    | _ => None
                    end)
          (fun i => (5 + Z.of_nat i)%Z)))
  = 6%nat.
Proof.
  destruct (store_history_skips_failures
              [NightscoutAPI.Entry 120 1000 "Flat";
               NightscoutAPI.Entry 125 2000 "Flat";
               NightscoutAPI.Entry 130 3000 "FortyFiveUp"]
              DatabaseManager.sample_db
              (DatabaseManager.MkUser 2 "sam@example.org" None
                 DatabaseManager.placeholder_url 600)
              (fun date => (date * 1000)%Z)
              (fun i => match i with
                        | 1%nat =>
                            Some (Py.Exn (Py.OtherExc "IntegrityError") "busy")
                        | _ => None
                        end)
              (fun i => (5 + Z.of_nat i)%Z))
    as (_ & added & Hreadings & Hlen & _).
  rewrite Hreadings, length_app, Hlen. reflexivity.
Defined.

(** ** Alert dispatch, further *)

Section MoreDispatchFacts.

Import AlertManager Channels.
Local Open Scope string_scope.

Variable w : world.

Ltac cases_of_world :=
  destruct w as [[sid token number password] ctor create smtp];
  cbn in *.

Lemma attempts_app (t1 t2 : list event) :
  attempts (t1 ++ t2) = (attempts t1 ++ attempts t2)%list.
Proof. apply filter_app. Qed.

Lemma attempts_of_sms_step
  (to_number : option string) (a : alert) (st : cls) :
  attempts (trace (sms_step w to_number a st))
  = expected_sms_attempt w st to_number a.
Proof.
  unfold expected_sms_attempt, attrs_at_sms_gate, trace, final.
  destruct to_number as [[| c dest] |]; [reflexivity | | reflexivity].
  destruct st as [[cl |] fn pw]; cases_of_world.
  - destruct fn as [[| ? ?] |]; cbn;
      try destruct (create (String c dest)); reflexivity.
  - destruct sid as [[| ? ?] |], token as [[| ? ?] |], ctor as [? |],
             password as [[| ? ?] |], number as [[| ? ?] |];
      cbn; try destruct (create (String c dest)); reflexivity.
Qed.

Lemma attempts_of_email_step
  (to_email : option string) (a : alert) (st : cls) :
  attempts (trace (email_step w to_email a st))
  = match to_email with
    | Some (String _ _ as dest) =>
        if Py.truthy (email_password st)
        then [SmtpSend email_sender dest (compose a)]
        else []
    | _ => []
    end.
Proof.
  unfold trace.
  destruct to_email as [[| c dest] |]; [reflexivity | | reflexivity].
  destruct st as [cl fn [[| ? ?] |]]; cases_of_world;
    try destruct (smtp (String c dest)); reflexivity.
Qed.

Lemma attempts_of_dispatch
  (to_number : option string) (a : alert) (to_email : option string)
  (st : cls) :
  attempts (trace (send_glucose_alert w to_number a to_email st))
  = (expected_sms_attempt w st to_number a
     ++ expected_email_attempt w st to_number to_email a)%list.
Proof.
  rewrite trace_of_dispatch, attempts_app, attempts_of_sms_step,
    attempts_of_email_step.
  reflexivity.
Qed.

Lemma final_of_dispatch
  (to_number : option string) (a : alert) (to_email : option string)
  (st : cls) :
  final (send_glucose_alert w to_number a to_email st)
  = attrs_at_email_gate w st to_number.
Proof.
  rewrite send_glucose_alert_unfold. cbv zeta.
  change (final (?b, ?s, ?t)) with s.
  destruct (email_step_spec w to_email a
              (final (sms_step w to_number a st))) as (_ & F2 & _).
  destruct (sms_step_spec w to_number a st) as (_ & F1 & _).
  rewrite F2, F1. reflexivity.
Qed.

Lemma email_gate_stable (to_number : option string) (st : cls) :
  attrs_at_email_gate w (attrs_at_email_gate w st to_number) to_number
  = attrs_at_email_gate w st to_number /\
  attrs_at_sms_gate w (attrs_at_email_gate w st to_number)
  = (if Py.truthy to_number then attrs_at_sms_gate w st
     else attrs_at_sms_gate w st).
Proof.
  unfold attrs_at_email_gate.
  destruct (Py.truthy to_number).
  - split; apply sms_gate_stable.
  - split; reflexivity.
Qed.

Lemma initialize_from_world (st st' : cls) :
  final (_initialize_client w st) = final (_initialize_client w st').
Proof.
  cases_of_world.
  destruct sid as [[| ? ?] |], token as [[| ? ?] |], ctor as [? |],
           password as [[| ? ?] |]; reflexivity.
Qed.

End MoreDispatchFacts.

(** X19.  [_initialize_client] overwrites all three class attributes from
    the environment, whatever they held before: the sender number and the
    e-mail password become the environment's values (unset when the
    variable is unset), a client is held exactly when both Twilio
    credentials are non-empty and building the client does not raise, and
    running it again changes nothing.  It never sends anything. *)
Theorem initialize_overwrites_attributes
  (w : AlertManager.world) (st st' : AlertManager.cls) :
  let after := AlertManager.final (AlertManager._initialize_client w st) in
  AlertManager.final (AlertManager._initialize_client w st') = after /\
  AlertManager.from_number after
  = AlertManager.TWILIO_PHONE_NUMBER (AlertManager.env w) /\
  AlertManager.email_password after
  = AlertManager.EMAIL_PASSWORD (AlertManager.env w) /\
  (Py.is_not_None (AlertManager.client after) = true <->
   Py.truthy (AlertManager.TWILIO_ACCOUNT_SID (AlertManager.env w)) = true /\
   Py.truthy (AlertManager.TWILIO_AUTH_TOKEN (AlertManager.env w)) = true /\
   AlertManager.client_ctor w = None) /\
  AlertManager.final (AlertManager._initialize_client w after) = after /\
  Channels.attempts
    (AlertManager.trace (AlertManager._initialize_client w st)) = [].
Proof.
  cbv zeta.
  split; [apply initialize_from_world |].
  destruct w as [[sid token number password] ctor create smtp].
  unfold AlertManager.final, AlertManager.trace.
  destruct sid as [[| ? ?] |], token as [[| ? ?] |], ctor as [? |],
           password as [[| ? ?] |];
    cbn; repeat split; try reflexivity; try discriminate;
    intros (? & ? & ?); discriminate.
Qed.

(** X20.  Starting from the freshly imported class, when no environment
    variable is set to the empty string and [can_send_alerts] answers
    [True], a dispatch that is given both a phone number and an e-mail
    address makes at least one send. *)
Theorem can_send_alerts_usable
  (w : AlertManager.world) (a : AlertManager.alert)
  (to_number to_email : option string)
  (number_set : AlertManager.TWILIO_PHONE_NUMBER (AlertManager.env w)
                <> Some ""%string)
  (password_set : AlertManager.EMAIL_PASSWORD (AlertManager.env w)
                  <> Some ""%string)
  (answer : AlertManager.result
              (AlertManager.can_send_alerts w AlertManager.fresh) = true)
  (has_number : Py.truthy to_number = true)
  (has_email : Py.truthy to_email = true) :
  Channels.attempts
    (AlertManager.trace
       (AlertManager.send_glucose_alert w to_number a to_email
          (AlertManager.final
             (AlertManager.can_send_alerts w AlertManager.fresh))))
  <> [].
Proof.
  rewrite attempts_of_dispatch.
  unfold Channels.expected_sms_attempt, Channels.expected_email_attempt,
    Channels.attrs_at_email_gate, Channels.attrs_at_sms_gate.
  destruct to_number as [[| c1 d1] |]; try discriminate.
  destruct to_email as [[| c2 d2] |]; try discriminate.
  cbn [Py.truthy].
  destruct w as [[sid token number password] ctor create smtp].
  unfold AlertManager.result, AlertManager.final in *.
  destruct sid as [[| ? ?] |], token as [[| ? ?] |], ctor as [? |],
           password as [[| ? ?] |], number as [[| ? ?] |];
    cbn in *; try discriminate; congruence.
Qed.

Lemma can_send_alerts_usable_witness :
  Channels.attempts
    (AlertManager.trace
       (AlertManager.send_glucose_alert Samples.all_down Samples.phone
          Samples.high_alert Samples.mailbox
          (AlertManager.final
             (AlertManager.can_send_alerts Samples.all_down
                AlertManager.fresh))))
  <> [].
Proof.
  apply (can_send_alerts_usable Samples.all_down Samples.high_alert
           Samples.phone Samples.mailbox);
    try discriminate; reflexivity.
Defined.

(** X21.  Nothing remembers that an alert was sent: dispatching the same
    alert again, from the class state the first dispatch left, gives the
    same result, makes the same sends again and leaves the same state. *)
Theorem dispatch_twice_sends_twice
  (w : AlertManager.world) (st : AlertManager.cls)
  (to_number : option string) (a : AlertManager.alert)
  (to_email : option string) :
  let r1 := AlertManager.send_glucose_alert w to_number a to_email st in
  let r2 := AlertManager.send_glucose_alert w to_number a to_email
              (AlertManager.final r1) in
  AlertManager.result r2 = AlertManager.result r1 /\
  Channels.attempts (AlertManager.trace r2)
  = Channels.attempts (AlertManager.trace r1) /\
  AlertManager.final r2 = AlertManager.final r1.
Proof.
  cbv zeta. rewrite !final_of_dispatch, !attempts_of_dispatch.
  destruct (email_gate_stable w to_number st) as [Hemail Hsms].
  destruct (dispatch_spec w to_number a to_email st) as (R1 & _).
  destruct (dispatch_spec w to_number a to_email
              (Channels.attrs_at_email_gate w st to_number)) as (R2 & _).
  rewrite R1, R2.
  unfold Channels.sms_configured, Channels.email_configured,
    Channels.expected_sms_attempt, Channels.expected_email_attempt.
  rewrite Hemail.
  destruct to_number as [[| c dest] |]; cbn [Py.truthy andb];
    [repeat split; reflexivity | | repeat split; reflexivity].
  unfold Channels.attrs_at_email_gate in *. cbn [Py.truthy] in *.
  rewrite !sms_gate_stable. repeat split; reflexivity.
Qed.

(** X22.  A dispatch makes at most one send per channel, the SMS before
    the e-mail.  The SMS goes to the phone number the caller gave, from
    the sender number the class holds; the e-mail goes to the address the
    caller gave, from the fixed sender address. *)
Theorem one_send_per_channel
  (w : AlertManager.world) (st : AlertManager.cls)
  (to_number : option string) (a : AlertManager.alert)
  (to_email : option string) :
  exists sms email,
    Channels.attempts
      (AlertManager.trace
         (AlertManager.send_glucose_alert w to_number a to_email st))
    = (sms ++ email)%list /\
    (List.length sms <= 1)%nat /\
    (List.length email <= 1)%nat /\
    Forall
      (fun e =>
         match e with
         | AlertManager.MessagesCreate _ sender dest =>
             to_number = Some dest /\
             AlertManager.from_number (Channels.attrs_at_sms_gate w st)
             = Some sender
         | _ => False
         end) sms /\
    Forall
      (fun e =>
         match e with
         | AlertManager.SmtpSend sender dest _ =>
             to_email = Some dest /\
             sender = "diabetes.monitor.alerts@gmail.com"%string
         | _ => False
         end) email /\
    (sms <> [] <-> Channels.sms_configured w st to_number = true) /\
    (email <> [] <->
     Channels.email_configured w st to_number to_email = true).
Proof.
  rewrite attempts_of_dispatch.
  exists (Channels.expected_sms_attempt w st to_number a),
         (Channels.expected_email_attempt w st to_number to_email a).
  split; [reflexivity |].
  unfold Channels.expected_sms_attempt, Channels.expected_email_attempt,
    Channels.sms_configured, Channels.email_configured.
  destruct to_number as [[| c1 d1] |], to_email as [[| c2 d2] |];
    cbn [Py.truthy andb];
    repeat match goal with
           | |- context [AlertManager.client ?g] =>
               destruct (AlertManager.client g)
           | |- context [AlertManager.from_number ?g] =>
               destruct (AlertManager.from_number g) as [[| ? ?] |]
           | |- context [AlertManager.email_password ?g] =>
               destruct (AlertManager.email_password g) as [[| ? ?] |]
           end;
    cbn [List.length Py.is_not_None Py.truthy andb];
    repeat split; try lia; repeat constructor;
    try discriminate; try (intros H; contradiction H; reflexivity);
    try (intros H; discriminate H).
Qed.

(** X23.  [send_email_alert] called on its own never changes the class
    attributes; without a recipient it returns [False] after printing
    "No recipient email provided." and nothing else; and it returns
    [True] exactly when a recipient is given, the password attribute is
    set and the SMTP session does not raise. *)
Theorem send_email_alert_direct
  (w : AlertManager.world) (st : AlertManager.cls)
  (to_email : option string) (a : AlertManager.alert) :
  let r := AlertManager.send_email_alert w to_email a st in
  AlertManager.final r = st /\
  (Py.truthy to_email = false ->
   AlertManager.result r = false /\
   AlertManager.trace r
   = [AlertManager.Print "No recipient email provided."]) /\
  (AlertManager.result r = true <->
   Py.truthy to_email = true /\
   Py.truthy (AlertManager.email_password st) = true /\
   Channels.email_accepted w to_email = true).
Proof.
  cbv zeta. unfold AlertManager.final, AlertManager.result,
    AlertManager.trace, Channels.email_accepted.
  destruct to_email as [[| c dest] |];
    try (cbn; repeat split; try reflexivity; try discriminate;
         intros (H & _); discriminate).
  destruct st as [cl fn [[| ? ?] |]];
    destruct w as [[sid token number password] ctor create smtp]; cbn;
    try (repeat split; try reflexivity; try discriminate;
         intros (_ & H & _); discriminate).
  destruct (smtp (String c dest)); cbn;
    repeat split; try reflexivity; try discriminate;
    intros (_ & _ & H); discriminate.
Qed.

(** ** Telemetry client, further *)

Section MoreTelemetryFacts.

Import NightscoutAPI.

Lemma sample_walk_dates (dates : list Z) (base : Z) (g : rng) :
  map entry_date (sample_walk base dates g) = dates.
Proof.
  revert base g. induction dates as [| d rest IH]; intros base g; simpl;
    [reflexivity | f_equal; apply IH].
Qed.

Lemma sample_walk_bounded (dates : list Z) (base : Z) (g : rng) :
  Forall (fun v => 60 <= v /\ v <= 250)
         (map entry_sgv (sample_walk base dates g)).
Proof.
  revert base g. induction dates as [| d rest IH]; intros base g; simpl;
    constructor; [| apply IH].
  change 60 with (inject_Z 60). change 250 with (inject_Z 250).
  rewrite <- !Zle_Qle. lia.
Qed.

Lemma sample_walk_directions (dates : list Z) (base : Z) (g : rng)
  (allowed : string -> Prop) :
  (forall i, allowed (choice g i)) ->
  Forall allowed (map entry_direction (sample_walk base dates g)).
Proof.
  revert base g. induction dates as [| d rest IH]; intros base g Hall; simpl;
    constructor; [apply Hall | apply IH; intros i; apply Hall].
Qed.

Lemma rstrip_slash_tail (s : string) :
  exists tail,
    s = (rstrip_slash s ++ tail)%string /\
    Forall (fun c => c = "/"%char) (list_ascii_of_string tail).
Proof.
  induction s as [| c rest (tail & Hsplit & Hall)].
  - exists EmptyString. split; [reflexivity | constructor].
  - simpl. destruct (rstrip_slash rest) as [| k kept] eqn:E.
    + destruct (Ascii.eqb_spec c "/") as [-> | Hne].
      * exists (String "/" tail). simpl in Hsplit. subst rest.
        split; [reflexivity | constructor; [reflexivity | exact Hall]].
      * exists tail. simpl in *. subst rest. split; [reflexivity | exact Hall].
    + exists tail. simpl in *. rewrite <- Hsplit.
      split; [reflexivity | exact Hall].
Qed.

Lemma rstrip_slash_no_trailing (s p : string) :
  rstrip_slash s <> (p ++ "/")%string.
Proof.
  revert p. induction s as [| c rest IH]; intros p; simpl.
  - destruct p; discriminate.
  - destruct (rstrip_slash rest) as [| k kept] eqn:E.
    + destruct (Ascii.eqb_spec c "/") as [-> | Hne].
      * destruct p; discriminate.
      * destruct p as [| c' [| ? ?]]; simpl; try discriminate.
        intros H. injection H as H. contradiction.
    + destruct p as [| c' p']; simpl.
      * intros H. injection H as _ H. discriminate.
      * intros H. injection H as _ H. exact (IH p' H).
Qed.

Lemma rstrip_slash_fixed (s : string) :
  (forall p, s <> (p ++ "/")%string) -> rstrip_slash s = s.
Proof.
  induction s as [| c rest IH]; intros Hno; [reflexivity |].
  simpl. destruct rest as [| c' rest'].
  - simpl. destruct (Ascii.eqb_spec c "/") as [-> | _]; [| reflexivity].
    exfalso. apply (Hno EmptyString). reflexivity.
  - rewrite IH; [reflexivity |].
    intros p E. apply (Hno (String c p)). simpl. rewrite E. reflexivity.
Qed.

End MoreTelemetryFacts.

Lemma sample_data_shape_core (now : NightscoutAPI.local_clock) (g : NightscoutAPI.rng) (hours : Z) :
  List.length
    (DataProcessor.sgv (NightscoutAPI._generate_sample_data now g hours))
  = Z.to_nat (hours * 12) /\
  Forall (fun v => 60 <= v /\ v <= 250)
    (DataProcessor.sgv (NightscoutAPI._generate_sample_data now g hours)).
Proof.
  unfold NightscoutAPI._generate_sample_data, NightscoutAPI.DataFrame.
  cbn [DataProcessor.sgv].
  split; [| apply sample_walk_bounded].
  rewrite length_map.
  rewrite <- (length_map NightscoutAPI.entry_date), sample_walk_dates,
    length_map, length_seq.
  reflexivity.
Qed.

(** X24.  Whatever the random source draws, [_generate_sample_data]
    returns 12 samples per hour (none for a non-positive number of hours),
    every glucose value lies in [60, 250], and the i-th date is the epoch
    stamp the host's zone gives the wall-clock time 5 i minutes before
    the current wall-clock time. *)
Theorem sample_data_shape (now : NightscoutAPI.local_clock) (g : NightscoutAPI.rng) (hours : Z) :
  let df := NightscoutAPI._generate_sample_data now g hours in
  List.length (DataProcessor.sgv df) = Z.to_nat (hours * 12) /\
  List.length (DataProcessor.date df) = Z.to_nat (hours * 12) /\
  Forall (fun v => 60 <= v /\ v <= 250) (DataProcessor.sgv df) /\
  (forall i, (i < Z.to_nat (hours * 12))%nat ->
     nth_error (DataProcessor.date df) i
     = Some (NightscoutAPI.stamp_ms now
               (NightscoutAPI.wall_now now - 300000000 * Z.of_nat i)%Z)) /\
  ((hours <= 0)%Z -> DataProcessor.empty df = true) /\
  ((0 < hours)%Z -> DataProcessor.empty df = false).
Proof.
  cbv zeta. unfold NightscoutAPI._generate_sample_data, NightscoutAPI.DataFrame,
    DataProcessor.empty.
  cbn [DataProcessor.sgv DataProcessor.date].
  set (dates := map _ (seq 0 (Z.to_nat (hours * 12)))).
  assert (Hlen : List.length dates = Z.to_nat (hours * 12))
    by (unfold dates; rewrite length_map, length_seq; reflexivity).
  assert (Hsgv : List.length
                   (map NightscoutAPI.entry_sgv
                      (NightscoutAPI.sample_walk 120 dates g))
                 = Z.to_nat (hours * 12)).
  { rewrite length_map, <- (length_map NightscoutAPI.entry_date),
      sample_walk_dates.
    exact Hlen. }
  split; [exact Hsgv |].
  rewrite sample_walk_dates.
  split; [exact Hlen |].
  split; [apply sample_walk_bounded |].
  split.
  { intros i Hi. unfold dates.
    rewrite nth_error_map, nth_error_seq.
    apply Nat.ltb_lt in Hi. rewrite Hi. reflexivity. }
  split; intros Hh;
    destruct (map NightscoutAPI.entry_sgv
                (NightscoutAPI.sample_walk 120 dates g));
    simpl in Hsgv; try reflexivity; lia.
Qed.

(** X25.  The base URL kept by the client is the given URL without its
    trailing slashes: it never ends with '/', the given URL is the base
    URL followed by slashes only, and normalising twice is normalising
    once.  Development mode is decided on the URL as given, so it is on
    exactly for the placeholder URL itself; the placeholder followed by a
    slash has the placeholder as base URL and is not development mode. *)
Theorem base_url_has_no_trailing_slash (url : string) :
  let a := NightscoutAPI.init url in
  (forall p, NightscoutAPI.base_url a <> (p ++ "/")%string) /\
  (exists tail,
     url = (NightscoutAPI.base_url a ++ tail)%string /\
     Forall (fun c => c = "/"%char) (list_ascii_of_string tail)) /\
  NightscoutAPI.base_url (NightscoutAPI.init (NightscoutAPI.base_url a))
  = NightscoutAPI.base_url a /\
  (NightscoutAPI.dev_mode a = true <->
   url = DatabaseManager.placeholder_url) /\
  NightscoutAPI.base_url
    (NightscoutAPI.init (DatabaseManager.placeholder_url ++ "/")%string)
  = DatabaseManager.placeholder_url /\
  NightscoutAPI.dev_mode
    (NightscoutAPI.init (DatabaseManager.placeholder_url ++ "/")%string)
  = false.
Proof.
  cbv zeta. cbn [NightscoutAPI.init NightscoutAPI.base_url
                 NightscoutAPI.dev_mode].
  split; [intros p; apply rstrip_slash_no_trailing |].
  split; [apply rstrip_slash_tail |].
  split; [apply rstrip_slash_fixed; intros p; apply rstrip_slash_no_trailing |].
  split; [apply String.eqb_eq |].
  split; reflexivity.
Qed.

(** X26.  In development mode the network is never consulted and the
    fetch cannot fail; for one hour or more the statistics of the fetched
    history are defined, and their minimum, average and maximum all lie
    between 60 and 250, whatever the random source draws. *)
Theorem dev_mode_statistics_bounded
  (a : NightscoutAPI.api) (now : NightscoutAPI.local_clock) (g : NightscoutAPI.rng)
  (x : NightscoutAPI.exchange) (hours : Z)
  (dev : NightscoutAPI.dev_mode a = true)
  (some_hours : (1 <= hours)%Z) :
  exists df mn avg mx,
    NightscoutAPI.get_glucose_data a now g x hours = inl df /\
    (forall x', NightscoutAPI.get_glucose_data a now g x' hours = inl df) /\
    let d := DataProcessor.calculate_statistics df in
    DataProcessor.lookup "min" d = Some (DataProcessor.Num mn) /\
    DataProcessor.lookup "average" d = Some (DataProcessor.Num avg) /\
    DataProcessor.lookup "max" d = Some (DataProcessor.Num mx) /\
    60 <= mn /\ mn <= avg /\ avg <= mx /\ mx <= 250.
Proof.
  unfold NightscoutAPI.get_glucose_data. rewrite dev.
  set (df := NightscoutAPI._generate_sample_data now g hours).
  destruct (sample_data_shape_core now g hours) as (Hlen & Hall).
  fold df in Hlen, Hall.
  unfold DataProcessor.calculate_statistics.
  destruct (DataProcessor.sgv df) as [| v vs] eqn:E;
    [simpl in Hlen; lia |].
  exists df, (DataProcessor.min_from v vs), (DataProcessor.mean (v :: vs)),
         (DataProcessor.max_from v vs).
  split; [reflexivity |]. split; [reflexivity |].
  cbv zeta. rewrite E. do 3 (split; [reflexivity |]).
  destruct (mean_between v vs) as [Hlo Hhi].
  rewrite Forall_forall in Hall.
  destruct (Hall _ (min_from_in vs v)) as [Hmin _].
  destruct (Hall _ (max_from_in vs v)) as [_ Hmax].
  repeat split; assumption.
Qed.

Lemma dev_mode_statistics_bounded_witness :
  exists df mn mx,
    NightscoutAPI.get_glucose_data
      (NightscoutAPI.init DatabaseManager.placeholder_url) Samples.utc Samples.steady
      (NightscoutAPI.GetRaises (Py.Exn Py.RequestExc "offline")) 1 = inl df /\
    DataProcessor.lookup "min" (DataProcessor.calculate_statistics df)
    = Some (DataProcessor.Num mn) /\
    DataProcessor.lookup "max" (DataProcessor.calculate_statistics df)
    = Some (DataProcessor.Num mx) /\
    60 <= mn /\ mx <= 250.
Proof.
  destruct (dev_mode_statistics_bounded
              (NightscoutAPI.init DatabaseManager.placeholder_url) Samples.utc
              Samples.steady
              (NightscoutAPI.GetRaises (Py.Exn Py.RequestExc "offline")) 1
              eq_refl)
    as (df & mn & avg & mx & Hrun & _ & Hmin & _ & Hmax & Hlo & _ & _ & Hhi);
    [lia |].
  exists df, mn, mx. repeat split; assumption.
Defined.



(** ** Statistics in float64 *)

Section Binary64Facts.

Import Binary64.










End Binary64Facts.

Section Series64Facts.








End Series64Facts.



